(** * index_deps: resolving distribution names to package directories

    A shallow embedding of [index_deps.py] and the properties of its
    name resolver, manifest reader, indexing driver and orchestrator.

    Conventions of the embedding.
    - A Python [str] is a [string]: a sequence of 8-bit characters, read as
      code points.  Case mapping is the ASCII one ([A]-[Z] against
      [a]-[z]); the other characters have no case.
    - The file system is a tree of directories and text files without
      symbolic links and without limits on the length of names; a
      directory lists its entries in the order [iterdir] yields them.
    - A Python exception (and [sys.exit]) is a value of [exn] carried by
      the [result] type.
    - Of the failures of the operating system, a missing entry and an
      entry that is no directory are modelled; permissions, names that
      are too long and text that cannot be decoded are not.
    - The external indexer is taken by its exit status and its
      diagnostics; the index it writes is not among the files of the
      model, which are the files the run reads. *)

From Stdlib Require Import Ascii String List ZArith Lia Bool.
From stdpp Require Import base option list gmap strings sorting pretty.

#[local] Set Warnings "-clear-no-such-hyp".

(** ** Results and exceptions *)

Inductive exn : Type :=
  | IsADirectoryError
  | NotADirectoryError
  | FileNotFoundError
  | TypeError
  | AttributeError
  | ReError
  | TOMLDecodeError
  | SystemExit (msg : string).

Inductive result (A : Type) : Type :=
  | Ok (a : A)
  | Raise (e : exn).
Arguments Ok {A} a.
Arguments Raise {A} e.

Definition rbind {A B : Type} (r : result A) (k : A -> result B) : result B :=
  match r with
  | Ok a => k a
  | Raise e => Raise e
  end.

Notation "'let?' x ':=' r 'in' k" := (rbind r (fun x => k))
  (at level 10, x pattern, r at level 100, k at level 200).

(** ** Python string primitives *)

Module Py.

Definition is_upper (c : ascii) : bool :=
  let n := nat_of_ascii c in (65 <=? n) && (n <=? 90).

Definition is_digit (c : ascii) : bool :=
  let n := nat_of_ascii c in (48 <=? n) && (n <=? 57).

Definition is_alnum (c : ascii) : bool :=
  let n := nat_of_ascii c in
  is_digit c || is_upper c || ((97 <=? n) && (n <=? 122)).

(** [str.lower] on one character. *)
Definition lower_char (c : ascii) : ascii :=
  if is_upper c then ascii_of_nat (nat_of_ascii c + 32) else c.

(** [str.isspace] on one character: the code points below 256 that Python
    counts as white space. *)
Definition is_space (c : ascii) : bool :=
  let n := nat_of_ascii c in
  ((9 <=? n) && (n <=? 13)) || ((28 <=? n) && (n <=? 32))
  || (n =? 133) || (n =? 160).

(** Line boundaries of [str.splitlines]. *)
Definition is_linebreak (c : ascii) : bool :=
  let n := nat_of_ascii c in
  ((10 <=? n) && (n <=? 13)) || ((28 <=? n) && (n <=? 30)) || (n =? 133).

Fixpoint map_chars (f : ascii -> ascii) (s : string) : string :=
  match s with
  | EmptyString => EmptyString
  | String c s' => String (f c) (map_chars f s')
  end.

(** [s.lower()] *)
Definition lower (s : string) : string := map_chars lower_char s.

(** [s.replace(a, b)] for one-character [a] and [b]. *)
Definition replace_char (a b : ascii) (s : string) : string :=
  map_chars (fun c => if Ascii.eqb c a then b else c) s.

(** [c in s] for a one-character [c]. *)
Fixpoint contains (c : ascii) (s : string) : bool :=
  match s with
  | EmptyString => false
  | String x s' => Ascii.eqb x c || contains c s'
  end.

(** [s.split(c)[0]]: the text before the first [c], all of [s] without. *)
Fixpoint split_head (c : ascii) (s : string) : string :=
  match s with
  | EmptyString => EmptyString
  | String x s' => if Ascii.eqb x c then EmptyString else String x (split_head c s')
  end.

(** [s.split(c)]: the fields between the occurrences of [c]. *)
Fixpoint split (c : ascii) (s : string) : list string :=
  match s with
  | EmptyString => [EmptyString]
  | String x s' =>
      if Ascii.eqb x c then EmptyString :: split c s'
      else match split c s' with
           | [] => [String x EmptyString]
           | f :: fs => String x f :: fs
           end
  end.

(** [s.startswith(p)] *)
Definition startswith (s p : string) : bool := String.prefix p s.

(** [s.endswith(suf)]: some suffix of [s] is [suf]. *)
Fixpoint endswith (s suf : string) : bool :=
  String.eqb s suf
  || match s with
     | EmptyString => false
     | String _ s' => endswith s' suf
     end.

Fixpoint lstrip (s : string) : string :=
  match s with
  | EmptyString => EmptyString
  | String c s' => if is_space c then lstrip s' else s
  end.

Fixpoint rstrip (s : string) : string :=
  match s with
  | EmptyString => EmptyString
  | String c s' =>
      match rstrip s' with
      | EmptyString => if is_space c then EmptyString else String c EmptyString
      | r => String c r
      end
  end.

(** [s.strip()] *)
Definition strip (s : string) : string := rstrip (lstrip s).

(** [s.splitlines()]: [cur] is the line being read, reversed; a carriage
    return directly followed by a line feed is one boundary; a last line
    without a boundary is kept unless it is empty. *)
Fixpoint splitlines_from (cur : list ascii) (s : string) : list string :=
  match s with
  | EmptyString =>
      match cur with
      | [] => []
      | _ => [string_of_list_ascii (rev cur)]
      end
  | String c s' =>
      if is_linebreak c then
        string_of_list_ascii (rev cur) ::
        match s' with
        | String d s'' =>
            if Ascii.eqb c "013" && Ascii.eqb d "010"
            then splitlines_from [] s''
            else splitlines_from [] s'
        | EmptyString => splitlines_from [] s'
        end
      else splitlines_from (c :: cur) s'
  end.

Definition splitlines (s : string) : list string := splitlines_from [] s.

(** Truth value of a [str]: non-empty. *)
Definition truthy (s : string) : bool :=
  match s with
  | EmptyString => false
  | _ => true
  end.

End Py.

(** ** The fragment of Python's [re] the program uses

    The patterns of the program are sequences of one-character matchers:
    literal characters, escaped characters, [.], [^] and bracketed sets
    of characters with [\d].  A pattern outside this fragment does not
    parse here ([None]). *)

Module Re.

Inductive item : Type :=
  | IChar (c : ascii)
  | IDigit.

Inductive atom : Type :=
  | Bol
  | Lit (c : ascii)
  | AnyChar
  | OneOf (items : list item).

(** The characters [re.escape] puts a backslash before. *)
Definition is_special (c : ascii) : bool :=
  Py.contains c "()[]{}?*+-|^$\.&~# "
  || (let n := nat_of_ascii c in (9 <=? n) && (n <=? 13)).

Fixpoint escape (s : string) : string :=
  match s with
  | EmptyString => EmptyString
  | String c s' =>
      if is_special c then String "\" (String c (escape s'))
      else String c (escape s')
  end.

Definition is_sep (c : ascii) : bool := Py.contains c "-_.".

(** [re.sub(r"\\?[-_.]", "[-_.]", s)]: scanning from the left, an
    optional backslash followed by a separator becomes the text [[-_.]];
    a backslash that is not followed by a separator is kept. *)
Fixpoint sub_seps (s : string) : string :=
  match s with
  | EmptyString => EmptyString
  | String c s' =>
      if Ascii.eqb c "\" then
        match s' with
        | String d s'' =>
            if is_sep d then "[-_.]" +:+ sub_seps s''
            else String c (sub_seps s')
        | EmptyString => String c EmptyString
        end
      else if is_sep c then "[-_.]" +:+ sub_seps s'
      else String c (sub_seps s')
  end.

(** Operators of the pattern language that the program's patterns never
    hold unescaped. *)
Definition is_operator (c : ascii) : bool := Py.contains c "(){}?*+|$".

Inductive pstate : Type :=
  | Top
  | Esc
  | InSet (acc : list item)
  | InSetEsc (acc : list item).

(** The pattern parser, one character at a time.  In a set, [-] is read
    as a character only in first position (no ranges), and the set is
    closed by the first []]. *)
Fixpoint parse (st : pstate) (p : string) : option (list atom) :=
  match p with
  | EmptyString =>
      match st with
      | Top => Some []
      | _ => None
      end
  | String c p' =>
      match st with
      | Top =>
          if Ascii.eqb c "\" then parse Esc p'
          else if Ascii.eqb c "[" then parse (InSet []) p'
          else if Ascii.eqb c "." then cons AnyChar <$> parse Top p'
          else if Ascii.eqb c "^" then cons Bol <$> parse Top p'
          else if is_operator c then None
          else cons (Lit c) <$> parse Top p'
      | Esc =>
          if Py.is_alnum c then None
          else cons (Lit c) <$> parse Top p'
      | InSet acc =>
          if Ascii.eqb c "]" then
            match acc with
            | [] => None
            | _ => cons (OneOf (rev acc)) <$> parse Top p'
            end
          else if Ascii.eqb c "\" then parse (InSetEsc acc) p'
          else if Ascii.eqb c "[" then None
          else if Ascii.eqb c "^" || Ascii.eqb c "-" then
            match acc with
            | [] => if Ascii.eqb c "-" then parse (InSet [IChar c]) p' else None
            | _ => None
            end
          else parse (InSet (IChar c :: acc)) p'
      | InSetEsc acc =>
          if Ascii.eqb c "d" then parse (InSet (IDigit :: acc)) p'
          else if Py.is_alnum c then None
          else parse (InSet (IChar c :: acc)) p'
      end
  end.

Definition item_matches (ignorecase : bool) (i : item) (x : ascii) : bool :=
  match i with
  | IChar c =>
      if ignorecase then Ascii.eqb (Py.lower_char c) (Py.lower_char x)
      else Ascii.eqb c x
  | IDigit => Py.is_digit x
  end.

Definition atom_matches (ignorecase : bool) (a : atom) (x : ascii) : bool :=
  match a with
  | Bol => false
  | Lit c => item_matches ignorecase (IChar c) x
  | AnyChar => negb (Ascii.eqb x "010")
  | OneOf items => existsb (fun i => item_matches ignorecase i x) items
  end.

(** Matching a sequence of atoms at the front of [s]; [at_start] tells
    whether no character has been consumed yet. *)
Fixpoint match_atoms (ignorecase at_start : bool) (atoms : list atom) (s : string) : bool :=
  match atoms with
  | [] => true
  | Bol :: rest => at_start && match_atoms ignorecase at_start rest s
  | a :: rest =>
      match s with
      | EmptyString => false
      | String x s' => atom_matches ignorecase a x && match_atoms ignorecase false rest s'
      end
  end.

(** [re.match(pattern, s, flags)] as a truth value. *)
Definition re_match (ignorecase : bool) (pattern s : string) : option bool :=
  (fun atoms => match_atoms ignorecase true atoms s) <$> parse Top pattern.

(** [re.split(r"[>=<!~\[;]", s)[0]]: the text before the first character
    of the set. *)
Definition is_qualifier_delim (c : ascii) : bool := Py.contains c ">=<!~[;".

Fixpoint split_head_set (s : string) : string :=
  match s with
  | EmptyString => EmptyString
  | String c s' =>
      if is_qualifier_delim c then EmptyString else String c (split_head_set s')
  end.

End Re.

(** ** The file system *)

Module Fs.

#[local] Unset Elimination Schemes.
Inductive node : Type :=
  | File (text : string)
  | Dir (entries : list (string * node)).
#[local] Set Elimination Schemes.

(** A pathlib path: whether it starts at the root, and its components. *)
Record path : Type := MkPath { anchored : bool; comps : list string }.

Fixpoint lookup (name : string) (entries : list (string * node)) : option node :=
  match entries with
  | [] => None
  | (n, x) :: rest => if String.eqb n name then Some x else lookup name rest
  end.

(** The components pathlib reads from a text: the fields between
    slashes, the empty ones and the [.] ones dropped. *)
Definition parts (s : string) : list string :=
  List.filter (fun p => negb (String.eqb p EmptyString) && negb (String.eqb p "."))
              (Py.split "/" s).

(** [Path(s)] *)
Definition Path (s : string) : path :=
  {| anchored := Py.startswith s "/"; comps := parts s |}.

(** [base / s]: an absolute [s] replaces [base]. *)
Definition joinpath (base : path) (s : string) : path :=
  if Py.startswith s "/" then Path s
  else {| anchored := anchored base; comps := comps base ++ parts s |}.

(** A child yielded by [iterdir]: the entry's name is taken as it is. *)
Definition child (base : path) (name : string) : path :=
  {| anchored := anchored base; comps := comps base ++ [name] |}.

Fixpoint join_comps (cs : list string) : string :=
  match cs with
  | [] => EmptyString
  | [c] => c
  | c :: cs' => c +:+ "/" +:+ join_comps cs'
  end.

(** [str(p)] *)
Definition str (p : path) : string :=
  if anchored p then "/" +:+ join_comps (comps p)
  else match comps p with
       | [] => "."
       | cs => join_comps cs
       end.

(** [p.name]: the last component. *)
Definition name (p : path) : string := List.last (comps p) EmptyString.

(** Path resolution by the operating system: [up] holds the directories
    above [cur], nearest first; [..] at the root stays at the root; a
    component below a file does not resolve. *)
Fixpoint walk (up : list node) (cur : node) (cs : list string) : option node :=
  match cs with
  | [] => Some cur
  | c :: cs' =>
      match cur with
      | File _ => None
      | Dir entries =>
          if String.eqb c ".." then
            match up with
            | [] => walk [] cur cs'
            | parent :: up' => walk up' parent cs'
            end
          else
            match lookup c entries with
            | Some x => walk (cur :: up) x cs'
            | None => None
            end
      end
  end.

(** A file system as a process sees it: the tree and the working
    directory (its components below the root). *)
Record t : Type := MkFs { root : node; cwd : list string }.

(** The components of [p] from the root. *)
Definition from_root (fs : t) (p : path) : list string :=
  if anchored p then comps p else cwd fs ++ comps p.

(** A path with a NUL character cannot be handed to the system. *)
Definition encodable (p : path) : bool :=
  forallb (fun c => negb (Py.contains "000" c)) (comps p).

Definition stat (fs : t) (p : path) : option node :=
  if encodable p then walk [] (root fs) (from_root fs p) else None.

(** [p.is_dir()] *)
Definition is_dir (fs : t) (p : path) : bool :=
  match stat fs p with
  | Some (Dir _) => true
  | _ => false
  end.

(** [p.exists()] *)
Definition exists_ (fs : t) (p : path) : bool :=
  match stat fs p with
  | Some _ => true
  | None => false
  end.

(** [p.iterdir()], the children in the system's order. *)
Definition iterdir (fs : t) (p : path) : result (list path) :=
  match stat fs p with
  | Some (Dir entries) => Ok (map (fun e => child p (fst e)) entries)
  | Some (File _) => Raise NotADirectoryError
  | None => Raise FileNotFoundError
  end.

(** [p.read_text()] *)
Definition read_text (fs : t) (p : path) : result string :=
  match stat fs p with
  | Some (File text) => Ok text
  | Some (Dir _) => Raise IsADirectoryError
  | None => Raise FileNotFoundError
  end.

(** The location a sequence of components denotes, [..] resolved; [acc]
    is the location reached so far, innermost component first. *)
Fixpoint locate_from (acc : list string) (cs : list string) : list string :=
  match cs with
  | [] => rev acc
  | c :: cs' =>
      if String.eqb c ".." then locate_from (tail acc) cs'
      else locate_from (c :: acc) cs'
  end.

Definition locate (fs : t) (p : path) : list string :=
  locate_from [] (from_root fs p).

(** [p.resolve()] *)
Definition resolve (fs : t) (p : path) : path :=
  {| anchored := true; comps := locate fs p |}.

(** [target] denotes the location of [store] or a location below it. *)
Definition inside (fs : t) (store target : path) : Prop :=
  locate fs store `prefix_of` locate fs target.

End Fs.

(** ** Name Resolver *)

Section Resolver.

Variable fs : Fs.t.
Variable site_packages : Fs.path.

(** [re.sub(r"\\?[-_.]", "[-_.]", re.escape(dist_name))] *)
Definition name_pattern (dist_name : string) : string :=
  Re.sub_seps (Re.escape dist_name).

(** [re.match(rf"^{pattern}-[\d]", name, re.IGNORECASE)] *)
Definition matches_dist (pattern name : string) : option bool :=
  Re.re_match true ("^" +:+ pattern +:+ "-[\d]") name.

(** The four conditions on a first path segment. *)
Definition qualifies (top : string) : bool :=
  negb (Py.endswith top ".dist-info")
  && negb (Py.startswith top "_")
  && negb (String.eqb top "..")
  && Fs.is_dir fs (Fs.joinpath site_packages top).

(** One line of a [RECORD], added to the set [dirs]. *)
Definition add_line (dirs : gset string) (line : string) : gset string :=
  let file_path := Py.split_head "," line in
  if Py.contains "/" file_path then
    let top := Py.split_head "/" file_path in
    if qualifies top then dirs ∪ {[top]} else dirs
  else dirs.

Definition record_dirs (text : string) : gset string :=
  foldl add_line ∅ (Py.splitlines text).

(** [sorted(dirs)] *)
Definition sorted (dirs : gset string) : list string :=
  merge_sort String.le (elements dirs).

(** The loop over the entries of the store; [Ok None] when the loop ends
    without returning. *)
Fixpoint scan (pattern : string) (entries : list Fs.path) : result (option (list string)) :=
  match entries with
  | [] => Ok None
  | d :: rest =>
      if negb (Py.endswith (Fs.name d) ".dist-info") then scan pattern rest
      else
        match matches_dist pattern (Fs.name d) with
        | None => Raise ReError
        | Some false => scan pattern rest
        | Some true =>
            let record := Fs.joinpath d "RECORD" in
            if negb (Fs.exists_ fs record) then scan pattern rest
            else
              let? text := Fs.read_text fs record in
              let dirs := record_dirs text in
              if decide (dirs = ∅) then scan pattern rest
              else Ok (Some (sorted dirs))
        end
  end.

(** [dist_name.lower().replace("-", "_")] *)
Definition normalized (dist_name : string) : string :=
  Py.replace_char "-" "_" (Py.lower dist_name).

Definition fallback (dist_name : string) : list string :=
  if Fs.is_dir fs (Fs.joinpath site_packages (normalized dist_name))
  then [normalized dist_name]
  else [].

Definition resolve_package_dirs (dist_name : string) : result (list string) :=
  let pattern := name_pattern dist_name in
  let? entries := Fs.iterdir fs site_packages in
  let? found := scan pattern entries in
  match found with
  | Some dirs => Ok dirs
  | None => Ok (fallback dist_name)
  end.

End Resolver.

(** ** Manifest Reader *)

Module Toml.

(** A parsed document, as far as the reader looks into it. *)
#[local] Unset Elimination Schemes.
Inductive value : Type :=
  | Str (s : string)
  | Array (items : list value)
  | Table (fields : list (string * value))
  | Scalar.
#[local] Set Elimination Schemes.

Fixpoint lookup (key : string) (fields : list (string * value)) : option value :=
  match fields with
  | [] => None
  | (k, v) :: rest => if String.eqb k key then Some v else lookup key rest
  end.

(** [v.get(key, default)]; only a table has [get]. *)
Definition get (v : value) (key : string) (default : value) : result value :=
  match v with
  | Table fields =>
      match lookup key fields with
      | Some x => Ok x
      | None => Ok default
      end
  | _ => Raise AttributeError
  end.

(** [for dep in v]: an array yields its items, a string its characters,
    a table its keys. *)
Definition iterate (v : value) : result (list value) :=
  match v with
  | Array items => Ok items
  | Str s => Ok (map (fun c => Str (String c EmptyString)) (list_ascii_of_string s))
  | Table fields => Ok (map (fun kv => Str (fst kv)) fields)
  | Scalar => Raise TypeError
  end.

End Toml.

(** [re.split(r"[>=<!~\[;]", dep)[0].strip()] *)
Definition dep_name (dep : string) : string :=
  Py.strip (Re.split_head_set dep).

(** The loop of [parse_pyproject_deps]; [names] is the list built so far. *)
Fixpoint collect_names (names : list string) (deps : list Toml.value) : result (list string) :=
  match deps with
  | [] => Ok names
  | Toml.Str dep :: rest =>
      let name := dep_name dep in
      if Py.truthy name then collect_names (names ++ [name]) rest
      else collect_names names rest
  | _ :: _ => Raise TypeError
  end.

(** [parse_pyproject_deps] from the parsed document [data]. *)
Definition deps_of_document (data : Toml.value) : result (list string) :=
  let? project := Toml.get data "project" (Toml.Table []) in
  let? deps := Toml.get project "dependencies" (Toml.Array []) in
  let? items := Toml.iterate deps in
  collect_names [] items.

Section ManifestReader.

(** [tomllib.loads], taken as given. *)
Variable tomllib_loads : string -> result Toml.value.

Definition parse_pyproject_deps (fs : Fs.t) (pyproject_path : Fs.path) : result (list string) :=
  let? text := Fs.read_text fs pyproject_path in
  let? data := tomllib_loads text in
  deps_of_document data.

End ManifestReader.

(** ** The run: state, output and the external indexer *)

(** The content of a metadata descriptor: the pairs of the JSON object. *)
Definition descriptor : Type := list (string * string).

(** What a run acts on: the file system it reads, the temporary files it
    has created (by name) and how many it created, the lines printed and
    the commands handed to [subprocess.run], oldest first. *)
Record world : Type := MkWorld {
  files : Fs.t;
  tmp : gmap string descriptor;
  tmp_count : nat;
  stdout : list string;
  runs : list (list string)
}.

(** A computation on the world that returns or raises. *)
Definition M (A : Type) : Type := world -> result A * world.

Definition ret {A : Type} (a : A) : M A := fun w => (Ok a, w).

Definition raise {A : Type} (e : exn) : M A := fun w => (Raise e, w).

Definition lift {A : Type} (r : result A) : M A := fun w => (r, w).

Definition mbind' {A B : Type} (m : M A) (k : A -> M B) : M B :=
  fun w =>
    match m w with
    | (Ok a, w') => k a w'
    | (Raise e, w') => (Raise e, w')
    end.

Notation "'let*' x ':=' m 'in' k" := (mbind' m (fun x => k))
  (at level 10, x pattern, m at level 100, k at level 200).
Notation "m ';;' k" := (mbind' m (fun _ => k))
  (at level 100, k at level 200, right associativity).

Definition get_files : M Fs.t := fun w => (Ok (files w), w).

(** [print(line)] *)
Definition print (line : string) : M unit :=
  fun w => (Ok tt, MkWorld (files w) (tmp w) (tmp_count w) (stdout w ++ [line]) (runs w)).

(** The name of the [n]-th temporary file of the run. *)
Definition tmp_name (n : nat) : string := "/tmp/tmp" +:+ pretty n +:+ ".meta.json".

(** [tempfile.NamedTemporaryFile(mode="w", suffix=".meta.json",
    delete=False)] with [json.dump(meta, f)] in its block: the file
    stays when the block is left; its name is returned. *)
Definition named_temporary_file (meta : descriptor) : M string :=
  fun w =>
    let meta_path := tmp_name (tmp_count w) in
    (Ok meta_path,
     MkWorld (files w) (<[meta_path := meta]> (tmp w)) (S (tmp_count w)) (stdout w) (runs w)).

(** [Path(meta_path).unlink(missing_ok=True)] *)
Definition unlink (meta_path : string) : M unit :=
  fun w => (Ok tt, MkWorld (files w) (delete meta_path (tmp w)) (tmp_count w) (stdout w) (runs w)).

(** What running a command comes to: the process ran and exited, or it
    could not be started. *)
Inductive process_result : Type :=
  | Completed (returncode : Z) (stderr : string)
  | NotStarted (e : exn).

Section Run.

(** The system's answer to a command, taken as given. *)
Variable spawn : list string -> process_result.

(** [tomllib.loads], taken as given. *)
Variable tomllib_loads : string -> result Toml.value.

(** [subprocess.run(cmd, capture_output=True, text=True)] *)
Definition subprocess_run (cmd : list string) : M (Z * string) :=
  fun w =>
    let w' := MkWorld (files w) (tmp w) (tmp_count w) (stdout w) (runs w ++ [cmd]) in
    match spawn cmd with
    | Completed returncode stderr => (Ok (returncode, stderr), w')
    | NotStarted e => (Raise e, w')
    end.

(** ** Indexing Driver *)

Definition index_directory (pkg_dir : string) (site_packages : Fs.path)
    (project : string) (index_dir : Fs.path) : M bool :=
  let pkg_path := Fs.joinpath site_packages pkg_dir in
  let* fs := get_files in
  if negb (Fs.is_dir fs pkg_path) then
    print ("  SKIP " +:+ pkg_dir +:+ " (not a directory)");;
    ret false
  else
    let repo_name := project +:+ "/deps/" +:+ pkg_dir in
    let meta := [("Name", repo_name)] in
    let* meta_path := named_temporary_file meta in
    let cmd := ["zoekt-index"; "-index"; Fs.str index_dir; "-meta"; meta_path;
                Fs.str pkg_path] in
    let* (returncode, stderr) := subprocess_run cmd in
    unlink meta_path;;
    if negb (returncode =? 0)%Z then
      print ("  FAIL " +:+ pkg_dir +:+ ": " +:+ Py.strip stderr);;
      ret false
    else
      print ("  OK   " +:+ pkg_dir +:+ " -> r:" +:+ repo_name);;
      ret true.

(** ** Environment Locator *)

Definition find_site_packages (fs : Fs.t) (venv : Fs.path) : result Fs.path :=
  let lib := Fs.joinpath venv "lib" in
  if negb (Fs.exists_ fs lib) then
    Raise (SystemExit ("Error: " +:+ Fs.str lib +:+ " does not exist"))
  else
    let? children := Fs.iterdir fs lib in
    let python_dirs :=
      List.filter (fun d => Fs.is_dir fs d && Py.startswith (Fs.name d) "python") children in
    match python_dirs with
    | [] => Raise (SystemExit ("Error: no python directory found in " +:+ Fs.str lib))
    | d :: _ =>
        let site_packages := Fs.joinpath d "site-packages" in
        if negb (Fs.exists_ fs site_packages) then
          Raise (SystemExit ("Error: " +:+ Fs.str site_packages +:+ " does not exist"))
        else Ok site_packages
    end.

(** ** Orchestrator *)

(** The parsed command line; an option that was not given is [None]. *)
Record args : Type := MkArgs {
  venv : string;
  project : string;
  pyproject : string;
  packages : option (list string);
  packages_file : option string;
  index_dir : string
}.

(** The names in a file of names. *)
Definition names_of_lines (text : string) : list string :=
  map Py.strip
      (List.filter (fun line => Py.truthy (Py.strip line) && negb (Py.startswith line "#"))
                   (Py.splitlines text)).

(** The [elif args.packages_file] branch. *)
Definition from_packages_file (file : string) : M (list string) :=
  let pf := Fs.Path file in
  let* fs := get_files in
  let* text := lift (Fs.read_text fs pf) in
  ret (names_of_lines text).

(** The [else] branch. *)
Definition from_pyproject (a : args) : M (list string) :=
  let pyproject := Fs.Path (pyproject a) in
  let* fs := get_files in
  if Fs.exists_ fs pyproject then
    let* packages := lift (parse_pyproject_deps tomllib_loads fs pyproject) in
    print ("Read " +:+ pretty (length packages) +:+ " dependencies from " +:+ Fs.str pyproject);;
    ret packages
  else raise (SystemExit "Error: no pyproject.toml found and no --packages given").

(** Collecting the package names: a non-empty list of names, else a
    non-empty file name, else the manifest. *)
Definition collect_packages (a : args) : M (list string) :=
  match packages a with
  | Some (p :: ps) => ret (p :: ps)
  | _ =>
      match packages_file a with
      | Some (String c f) => from_packages_file (String c f)
      | _ => from_pyproject a
      end
  end.

(** The resolution loop; [to_index] is the list built so far. *)
Fixpoint resolve_all (site_packages : Fs.path) (pkgs : list string)
    (to_index : list string) : M (list string) :=
  match pkgs with
  | [] => ret to_index
  | pkg :: rest =>
      let* fs := get_files in
      let* dirs := lift (resolve_package_dirs fs site_packages pkg) in
      match dirs with
      | _ :: _ => resolve_all site_packages rest (to_index ++ dirs)
      | [] =>
          print ("  SKIP " +:+ pkg +:+ " (not found in site-packages)");;
          resolve_all site_packages rest to_index
      end
  end.

(** [[d for d in to_index if not (d in seen or seen.add(d))]] *)
Fixpoint dedup_from (seen : gset string) (to_index : list string) : list string :=
  match to_index with
  | [] => []
  | d :: rest =>
      if decide (d ∈ seen) then dedup_from seen rest
      else d :: dedup_from (seen ∪ {[d]}) rest
  end.

Definition dedup (to_index : list string) : list string := dedup_from ∅ to_index.

(** The indexing loop with its two counters. *)
Fixpoint index_all (to_index : list string) (site_packages : Fs.path)
    (project : string) (index_dir : Fs.path) (ok failed : nat) : M (nat * nat) :=
  match to_index with
  | [] => ret (ok, failed)
  | pkg_dir :: rest =>
      let* indexed := index_directory pkg_dir site_packages project index_dir in
      if indexed then index_all rest site_packages project index_dir (ok + 1) failed
      else index_all rest site_packages project index_dir ok (failed + 1)
  end.

Definition newline : string := String "010" EmptyString.

(** [main], returning the two counters it prints last. *)
Definition main (a : args) : M (nat * nat) :=
  let* fs := get_files in
  let venv := Fs.resolve fs (Fs.Path (venv a)) in
  let index_dir := Fs.Path (index_dir a) in
  let* site_packages := lift (find_site_packages fs venv) in
  let* pkgs := collect_packages a in
  match pkgs with
  | [] => raise (SystemExit "Error: no packages to index")
  | _ :: _ =>
      let* to_index := resolve_all site_packages pkgs [] in
      let to_index := dedup to_index in
      print ("Indexing " +:+ pretty (length to_index) +:+ " package directories from "
             +:+ Fs.str site_packages);;
      print ("Project: " +:+ project a +:+ ", Index: " +:+ Fs.str index_dir +:+ newline);;
      let* (ok, failed) := index_all to_index site_packages (project a) index_dir 0 0 in
      print (newline +:+ "Done: " +:+ pretty ok +:+ " indexed, " +:+ pretty failed +:+ " failed");;
      ret (ok, failed)
  end.

End Run.

(** ** Notions the properties are stated with *)

(** Two characters that count as the same in a distribution name: two
    separators, or two characters equal up to letter case. *)
Definition same_char (x y : ascii) : bool :=
  (Re.is_sep x && Re.is_sep y) || Ascii.eqb (Py.lower_char x) (Py.lower_char y).

(** Two names that differ only in the choice of separators and in letter
    case. *)
Fixpoint sep_case_equiv (a b : string) : bool :=
  match a, b with
  | EmptyString, EmptyString => true
  | String x a', String y b' => same_char x y && sep_case_equiv a' b'
  | _, _ => false
  end.

(** No backslash stands directly before a separator. *)
Fixpoint plain (a : string) : bool :=
  match a with
  | EmptyString => true
  | String c a' =>
      match a' with
      | String d _ => negb (Ascii.eqb c "\" && Re.is_sep d)
      | EmptyString => true
      end && plain a'
  end.

(** The matcher a character of a distribution name stands for. *)
Definition atom_of (c : ascii) : Re.atom :=
  if Re.is_sep c then Re.OneOf [Re.IChar "-"; Re.IChar "_"; Re.IChar "."]
  else Re.Lit c.

(** The matchers the pattern of a name parses to, backslashes before an
    underscore included. *)
Fixpoint pattern_atoms (dist_name : string) : list Re.atom :=
  match dist_name with
  | EmptyString => []
  | String c rest =>
      if Ascii.eqb c "\" then
        match rest with
        | String d rest' =>
            if Ascii.eqb d "_" then
              [Re.Lit "["; Re.Lit "-"; Re.Lit "_"; Re.AnyChar; Re.Lit "]"]
              ++ pattern_atoms rest'
            else Re.Lit c :: pattern_atoms rest
        | EmptyString => [Re.Lit c]
        end
      else atom_of c :: pattern_atoms rest
  end.

(** A [RECORD] text lists a path whose first segment is [top]. *)
Definition lists (text top : string) : Prop :=
  ∃ line, line ∈ Py.splitlines text
          ∧ Py.contains "/" (Py.split_head "," line) = true
          ∧ Py.split_head "/" (Py.split_head "," line) = top.

(** The entry [d] of the store is a metadata directory matching
    [dist_name] whose record yields the non-empty set [dirs]. *)
Definition yields (fs : Fs.t) (site_packages : Fs.path) (dist_name : string)
    (d : Fs.path) (dirs : gset string) : Prop :=
  Py.endswith (Fs.name d) ".dist-info" = true
  ∧ matches_dist (name_pattern dist_name) (Fs.name d) = Some true
  ∧ (∃ text, Fs.read_text fs (Fs.joinpath d "RECORD") = Ok text
             ∧ record_dirs fs site_packages text = dirs)
  ∧ dirs ≠ ∅.

(** The elements of [l] that do not occur earlier in [l], in the order
    of [l]. *)
Definition first_occurrences (l : list string) : list string :=
  omap (fun ix => if decide (ix.2 ∈ take ix.1 l) then None else Some ix.2)
       (imap (fun i x => (i, x)) l).

(** The document of a manifest that declares [deps]. *)
Definition manifest (deps : list string) : Toml.value :=
  Toml.Table [("project", Toml.Table [("dependencies", Toml.Array (map Toml.Str deps))])].

(** All the characters of a string are white space. *)
Definition blank (s : string) : Prop :=
  ∀ c, Py.contains c s = true → Py.is_space c = true.

(** The last character of a string, if any. *)
Fixpoint last_char (s : string) : option ascii :=
  match s with
  | EmptyString => None
  | String c EmptyString => Some c
  | String _ s' => last_char s'
  end.

(** A string neither starts nor ends with white space. *)
Definition trimmed (s : string) : Prop :=
  match s with
  | String c _ => Py.is_space c = false
  | EmptyString => True
  end
  ∧ ∀ c, last_char s = Some c → Py.is_space c = false.

(** The command of a call of [index_directory], from the world the call
    starts in. *)
Definition command_of (pkg_dir : string) (site_packages index_dir : Fs.path) (w : world)
    : list string :=
  ["zoekt-index"; "-index"; Fs.str index_dir; "-meta"; tmp_name (tmp_count w);
   Fs.str (Fs.joinpath site_packages pkg_dir)].

(** The world after a call whose process exited: the descriptor is
    gone, the command is recorded and one line is printed. *)
Definition after_exit (pkg_dir : string) (site_packages : Fs.path) (project : string)
    (index_dir : Fs.path) (w : world) (line : string) : world :=
  MkWorld (files w)
          (delete (tmp_name (tmp_count w))
                  (<[tmp_name (tmp_count w) := [("Name", project +:+ "/deps/" +:+ pkg_dir)]]> (tmp w)))
          (S (tmp_count w))
          (stdout w ++ [line])
          (runs w ++ [command_of pkg_dir site_packages index_dir w]).


(** ** Small stores to run the program on *)

Module Demo.

Definition nl : string := String "010" EmptyString.

Definition site : list string := ["venv"; "lib"; "python3.11"; "site-packages"].

(** The store of [/venv], as [find_site_packages] finds it. *)
Definition sp : Fs.path := Fs.MkPath true site.

(** A file system with [entries] in the store of [/venv], a project in
    [/work] and a directory [/etc]. *)
Definition with_store (entries : list (string * Fs.node)) : Fs.t :=
  Fs.MkFs
    (Fs.Dir [("venv", Fs.Dir [("lib", Fs.Dir [("python3.11",
                Fs.Dir [("site-packages", Fs.Dir entries)])])]);
             ("work", Fs.Dir []);
             ("etc", Fs.Dir [])])
    ["work"].

Definition package : Fs.node := Fs.Dir [("__init__.py", Fs.File EmptyString)].

Definition dist_info (record : string) : Fs.node := Fs.Dir [("RECORD", Fs.File record)].

(** [Foo] installed with its metadata; [bar] without. *)
Definition store1 : Fs.t :=
  with_store
    [ ("Foo-1.2.0.dist-info",
       dist_info ("foo/__init__.py,sha256=x,0" +:+ nl +:+ "Foo-1.2.0.dist-info/RECORD,," +:+ nl));
      ("foo", package);
      ("bar", package) ].

(** [Foo] installed; its record still lists the directory [old], which
    is gone. *)
Definition store_stale : Fs.t :=
  with_store
    [ ("Foo-1.2.0.dist-info",
       dist_info ("foo/__init__.py,," +:+ nl +:+ "old/__init__.py,," +:+ nl));
      ("foo", package) ].

(** Two metadata directories of [foo], left by two installs. *)
Definition store_two_versions : Fs.t :=
  with_store
    [ ("foo-1.0.dist-info", dist_info ("a/__init__.py,," +:+ nl));
      ("foo-2.0.dist-info", dist_info ("b/__init__.py,," +:+ nl));
      ("a", package);
      ("b", package) ].

(** Directories without metadata. *)
Definition store_plain : Fs.t :=
  with_store [ ("my_pkg", package); ("_private", package) ].

(** Distribution [a] installs the directory [d]; [b] has no metadata. *)
Definition store_shared : Fs.t :=
  with_store
    [ ("a-1.0.dist-info", dist_info ("d/__init__.py,," +:+ nl));
      ("d", package);
      ("b", package) ].

Definition world_of (fs : Fs.t) : world := MkWorld fs ∅ 0 [] [].


(** An indexer that succeeds. *)
Definition succeeds (cmd : list string) : process_result :=
  Completed 0 EmptyString.

(** An indexer that fails with a diagnostic. *)
Definition fails (cmd : list string) : process_result :=
  Completed 1 "cannot index".

Definition no_toml (text : string) : result Toml.value := Raise TOMLDecodeError.

Definition run_with (names : list string) : args :=
  MkArgs "/venv" "myproject" "pyproject.toml" (Some names) None "/index".

End Demo.

(** ** More stores and worlds *)

Module Cases.

(** A metadata directory of [foo] whose [RECORD] is a directory. *)
Definition store_record_dir : Fs.t :=
  Demo.with_store
    [ ("foo-1.0.dist-info", Fs.Dir [("RECORD", Fs.Dir [])]);
      ("foo", Demo.package) ].

(** The record of [foo] lists a file by an absolute path. *)
Definition store_absolute : Fs.t :=
  Demo.with_store
    [ ("foo-1.0.dist-info",
       Demo.dist_info ("/usr/bin/foo,," +:+ Demo.nl +:+ "foo/__init__.py,," +:+ Demo.nl));
      ("foo", Demo.package) ].

End Cases.

(** ** More notions *)

(** No temporary file of the run to come is there yet. *)
Definition fresh_tmp (w : world) : Prop :=
  ∀ n, tmp_count w ≤ n → tmp w !! tmp_name n = None.

(** [w'] differs from [w] in the printed lines only. *)
Definition printed_only (w w' : world) : Prop :=
  files w' = files w ∧ tmp w' = tmp w ∧ tmp_count w' = tmp_count w ∧ runs w' = runs w.

(** The directories of a name, none when the resolution raises. *)
Definition resolved (fs : Fs.t) (site_packages : Fs.path) (pkg : string) : list string :=
  match resolve_package_dirs fs site_packages pkg with
  | Ok dirs => dirs
  | Raise _ => []
  end.

(** A value of a document that is a string. *)
Definition is_str (v : Toml.value) : bool :=
  match v with
  | Toml.Str _ => true
  | _ => false
  end.

(** An entry of [lib] that [find_site_packages] takes for a python
    directory. *)
Definition python_dir (fs : Fs.t) (d : Fs.path) : bool :=
  Fs.is_dir fs d && Py.startswith (Fs.name d) "python".

Module Cases2.

(** An environment whose [lib] holds a file and two python directories,
    the first of them with a store. *)
Definition venv_two_pythons : Fs.t :=
  Fs.MkFs
    (Fs.Dir [("venv", Fs.Dir [("lib", Fs.Dir
               [("python-notes.txt", Fs.File EmptyString);
                ("python3.11", Fs.Dir [("site-packages", Fs.Dir [])]);
                ("python3.12", Fs.Dir [("site-packages", Fs.Dir [])])])]);
             ("work", Fs.Dir [])])
    ["work"].

(** An environment whose [lib] is a file. *)
Definition venv_lib_file : Fs.t :=
  Fs.MkFs (Fs.Dir [("venv", Fs.Dir [("lib", Fs.File EmptyString)])]) [].

(** A project whose manifest declares nothing. *)
Definition project_without_deps : Fs.t :=
  Fs.MkFs
    (Fs.Dir [("venv", Fs.Dir [("lib", Fs.Dir [("python3.11",
                Fs.Dir [("site-packages", Fs.Dir [])])])]);
             ("work", Fs.Dir [("pyproject.toml", Fs.File "[tool]")])])
    ["work"].

Definition loads_tool_only (text : string) : result Toml.value :=
  Ok (Toml.Table [("tool", Toml.Table [])]).

Definition run_from_manifest : args :=
  MkArgs "/venv" "myproject" "pyproject.toml" None None "/index".

End Cases2.

(** An entry of the store that the loop of [resolve_package_dirs] passes
    over for [dist_name]: it is no metadata directory, or it does not
    match the name, or it has no [RECORD], or its [RECORD] is read and
    lists no first segment that passes the four conditions. *)
Definition passed_over (fs : Fs.t) (site_packages : Fs.path) (dist_name : string)
    (e : Fs.path) : Prop :=
  Py.endswith (Fs.name e) ".dist-info" = false
  ∨ matches_dist (name_pattern dist_name) (Fs.name e) = Some false
  ∨ Fs.exists_ fs (Fs.joinpath e "RECORD") = false
  ∨ (∃ text, Fs.read_text fs (Fs.joinpath e "RECORD") = Ok text
             ∧ ∀ Y, lists text Y → qualifies fs site_packages Y = false).

Module Cases3.

(** A store with a file, the metadata of another distribution, a stale
    metadata directory of [foo] whose only listed directory is gone, the
    metadata of [foo] that lists [foo] and the missing [old], and a
    later metadata directory of [foo] that lists [extra]. *)
Definition store_many : Fs.t :=
  Demo.with_store
    [ ("README.txt", Fs.File EmptyString);
      ("bar-1.0.dist-info", Demo.dist_info ("bar/__init__.py,," +:+ Demo.nl));
      ("foo-0.9.dist-info", Demo.dist_info ("gone/__init__.py,," +:+ Demo.nl));
      ("Foo-1.2.0.dist-info",
       Demo.dist_info ("foo/__init__.py,," +:+ Demo.nl +:+ "old/__init__.py,," +:+ Demo.nl));
      ("foo-2.0.dist-info", Demo.dist_info ("extra/__init__.py,," +:+ Demo.nl));
      ("foo", Demo.package);
      ("bar", Demo.package);
      ("extra", Demo.package) ].




End Cases3.

(** * Properties *)

(** ** The program on small inputs *)

Example lower_ex : Py.lower "Foo-Bar.X" = "foo-bar.x".
Proof. reflexivity. Qed.

Example splitlines_ex :
  Py.splitlines (String "a" (String "013" (String "010" (String "b" (String "010" EmptyString)))))
  = ["a"; "b"].
Proof. reflexivity. Qed.

Example strip_ex : Py.strip "  pkg " = "pkg".
Proof. reflexivity. Qed.

Example endswith_ex : Py.endswith "foo-1.0.dist-info" ".dist-info" = true.
Proof. reflexivity. Qed.

Example escape_ex : Re.escape "a-b_c.d" = "a\-b_c\.d".
Proof. reflexivity. Qed.

Example name_pattern_ex : name_pattern "a-b_c.d" = "a[-_.]b[-_.]c[-_.]d".
Proof. reflexivity. Qed.

Example matches_dist_ex :
  matches_dist (name_pattern "foo-bar") "Foo_Bar-1.0.dist-info" = Some true
  ∧ matches_dist (name_pattern "foo") "foo-bar-1.0.dist-info" = Some false.
Proof. split; reflexivity. Qed.

Example joinpath_ex :
  Fs.str (Fs.joinpath Demo.sp "a//b/./c") = "/venv/lib/python3.11/site-packages/a/b/c"
  ∧ Fs.joinpath Demo.sp EmptyString = Demo.sp
  ∧ Fs.str (Fs.joinpath Demo.sp "/etc") = "/etc".
Proof. repeat split; reflexivity. Qed.

Example find_site_packages_ex :
  find_site_packages Demo.store1 (Fs.resolve Demo.store1 (Fs.Path "/venv")) = Ok Demo.sp.
Proof. vm_compute. reflexivity. Qed.

(** The store holds [Foo-1.2.0.dist-info] whose record lists
    [foo/__init__.py], and the directory [foo]. *)
Example scenario_record : resolve_package_dirs Demo.store1 Demo.sp "foo" = Ok ["foo"].
Proof. vm_compute. reflexivity. Qed.

(** No metadata for [bar], but the directory [bar]. *)
Example scenario_fallback : resolve_package_dirs Demo.store1 Demo.sp "Bar" = Ok ["bar"].
Proof. vm_compute. reflexivity. Qed.

(** Neither metadata nor a directory: nothing is found, the run prints a
    skip line and does not call the indexer. *)
Example scenario_missing :
  resolve_package_dirs Demo.store1 Demo.sp "missing" = Ok []
  ∧ (let out := main Demo.succeeds Demo.no_toml (Demo.run_with ["missing"; "foo"])
                     (Demo.world_of Demo.store1) in
     out.1 = Ok (1, 0)
     ∧ stdout out.2 !! 0 = Some "  SKIP missing (not found in site-packages)"
     ∧ length (runs out.2) = 1).
Proof. repeat split; vm_compute; reflexivity. Qed.

(** ** Strings *)

Lemma app_cons c s t : String c s +:+ t = String c (s +:+ t).
Proof. reflexivity. Qed.

Lemma app_empty t : EmptyString +:+ t = t.
Proof. reflexivity. Qed.

Ltac each_char c := destruct c as [[] [] [] [] [] [] [] []].


(** ** Orchestrator: the source of the names *)

(** C9. A [--packages] option given without any name is not taken as the
    source: the names come from the file of names when one is given
    (with a non-empty file name) and from the manifest otherwise, exactly
    as when the option is absent. *)
Theorem empty_packages_falls_through
    tomllib_loads venv project pyproject packages_file index_dir :
  let given_empty := MkArgs venv project pyproject (Some []) packages_file index_dir in
  let absent := MkArgs venv project pyproject None packages_file index_dir in
  collect_packages tomllib_loads given_empty
  = match packages_file with
    | Some (String c f) => from_packages_file (String c f)
    | _ => from_pyproject tomllib_loads given_empty
    end
  ∧ collect_packages tomllib_loads given_empty = collect_packages tomllib_loads absent.
Proof.
  split.
  - reflexivity.
  - destruct packages_file as [[|c f]|]; reflexivity.
Qed.

(** A non-empty [--packages] list is the source, whatever else is given. *)
Lemma packages_have_priority tomllib_loads venv project pyproject p ps packages_file index_dir w :
  collect_packages tomllib_loads
    (MkArgs venv project pyproject (Some (p :: ps)) packages_file index_dir) w
  = (Ok (p :: ps), w).
Proof. reflexivity. Qed.

(** ** Manifest Reader *)


Lemma lstrip_spec s :
  ∃ l, s = l +:+ Py.lstrip s ∧ blank l
       ∧ match Py.lstrip s with
         | String c _ => Py.is_space c = false
         | EmptyString => True
         end.
Proof.
  induction s as [|c s IH]; simpl.
  - exists EmptyString. repeat split. intros c; discriminate.
  - destruct (Py.is_space c) eqn:Hc.
    + destruct IH as (l & Heq & Hl & Hhd).
      exists (String c l). split; [rewrite app_cons; by rewrite <- Heq|]. split; [|exact Hhd].
      intros x. simpl. destruct (Ascii.eqb_spec c x) as [->|_]; simpl; auto.
    + exists EmptyString. repeat split; [intros x; discriminate | exact Hc].
Qed.

Lemma rstrip_spec s :
  ∃ r, s = Py.rstrip s +:+ r ∧ blank r
       ∧ (∀ c, last_char (Py.rstrip s) = Some c → Py.is_space c = false)
       ∧ match s, Py.rstrip s with
         | String c _, String c' _ => c = c'
         | _, _ => True
         end.
Proof.
  induction s as [|c s IH]; simpl.
  - exists EmptyString. repeat split; [intros x; discriminate | discriminate].
  - destruct IH as (r & Heq & Hr & Hlast & _).
    destruct (Py.rstrip s) as [|c' t] eqn:Ht.
    + destruct (Py.is_space c) eqn:Hc.
      * exists (String c r). rewrite app_empty in Heq. subst s. repeat split; [|discriminate].
        intros x. simpl. destruct (Ascii.eqb_spec c x) as [->|_]; simpl; auto.
      * exists r. rewrite app_empty in Heq. subst s. repeat split; [exact Hr|].
        intros x [= <-]. exact Hc.
    + exists r. split; [rewrite !app_cons in *; by rewrite <- Heq|]. repeat split; [exact Hr|].
      intros x Hx. apply Hlast. simpl in Hx. exact Hx.
Qed.

Lemma strip_spec s :
  ∃ l r, s = l +:+ Py.strip s +:+ r ∧ blank l ∧ blank r ∧ trimmed (Py.strip s).
Proof.
  unfold Py.strip.
  destruct (lstrip_spec s) as (l & Hs & Hl & Hhd).
  destruct (rstrip_spec (Py.lstrip s)) as (r & Hls & Hr & Hlast & Hfirst).
  exists l, r. split; [by rewrite <- Hls|].
  repeat split; try assumption.
  destruct (Py.lstrip s) as [|c t]; [exact I|].
  destruct (Py.rstrip (String c t)) as [|c' t']; [exact I|]. by subst c'.
Qed.

Lemma collect_names_strings names deps :
  collect_names names (map Toml.Str deps)
  = Ok (names ++ List.filter Py.truthy (map dep_name deps)).
Proof.
  revert names. induction deps as [|dep deps IH]; intros names; simpl.
  - by rewrite app_nil_r.
  - destruct (Py.truthy (dep_name dep)); rewrite IH; [|reflexivity].
    by rewrite <- app_assoc.
Qed.

Lemma deps_of_manifest deps :
  deps_of_document (manifest deps) = Ok (List.filter Py.truthy (map dep_name deps)).
Proof. unfold deps_of_document, manifest. simpl. apply collect_names_strings. Qed.




(** Through [parse_pyproject_deps]: a manifest file whose text parses to
    a document declaring [deps]. *)
Lemma parse_pyproject_deps_names tomllib_loads fs pyproject_path text deps :
  Fs.read_text fs pyproject_path = Ok text →
  tomllib_loads text = Ok (manifest deps) →
  parse_pyproject_deps tomllib_loads fs pyproject_path
  = Ok (List.filter Py.truthy (map dep_name deps)).
Proof.
  intros Htext Hdoc. unfold parse_pyproject_deps. rewrite Htext. simpl.
  rewrite Hdoc. simpl. apply deps_of_manifest.
Qed.

(** ** Orchestrator: deduplication *)

Lemma elem_of_dedup_from seen l x :
  x ∈ dedup_from seen l ↔ x ∈ l ∧ x ∉ seen.
Proof.
  revert seen. induction l as [|d l IH]; intros seen; simpl.
  - set_solver.
  - destruct (decide (d ∈ seen)) as [Hd|Hd].
    + rewrite IH. set_solver.
    + rewrite elem_of_cons, IH. destruct (decide (x = d)) as [->|Hne]; set_solver.
Qed.

Lemma NoDup_dedup_from seen l : NoDup (dedup_from seen l).
Proof.
  revert seen. induction l as [|d l IH]; intros seen; simpl.
  - constructor.
  - destruct (decide (d ∈ seen)); [apply IH|].
    constructor; [|apply IH].
    rewrite elem_of_dedup_from. set_solver.
Qed.

Lemma dedup_from_ext seen seen' l :
  (∀ x, x ∈ seen ↔ x ∈ seen') → dedup_from seen l = dedup_from seen' l.
Proof.
  revert seen seen'. induction l as [|d l IH]; intros seen seen' Hs; simpl; [done|].
  destruct (decide (d ∈ seen)) as [Hd|Hd], (decide (d ∈ seen')) as [Hd'|Hd'];
    try (exfalso; set_solver).
  - by apply IH.
  - f_equal. apply IH. set_solver.
Qed.

Lemma dedup_from_app seen l1 l2 :
  dedup_from seen (l1 ++ l2)
  = dedup_from seen l1 ++ dedup_from (seen ∪ list_to_set l1) l2.
Proof.
  revert seen. induction l1 as [|d l1 IH]; intros seen; simpl.
  - apply dedup_from_ext. set_solver.
  - destruct (decide (d ∈ seen)) as [Hd|Hd].
    + rewrite IH. f_equal. apply dedup_from_ext. set_solver.
    + simpl. f_equal. rewrite IH. f_equal. apply dedup_from_ext. set_solver.
Qed.

(** The loop with its set [seen], against the elements seen so far kept
    as the list [pre]. *)
Lemma dedup_from_positions seen pre l :
  (∀ x, x ∈ seen ↔ x ∈ pre) →
  dedup_from seen l
  = omap (fun ix => if decide (ix.2 ∈ take ix.1 (pre ++ l)) then None else Some ix.2)
         (imap (fun i x => (length pre + i, x)) l).
Proof.
  revert seen pre. induction l as [|d l IH]; intros seen pre Hseen; [done|].
  simpl. replace (length pre + 0) with (length pre) by lia.
  rewrite take_app_length.
  assert (Hrest :
    dedup_from (seen ∪ {[d]}) l
    = omap (fun ix => if decide (ix.2 ∈ take ix.1 (pre ++ d :: l)) then None else Some ix.2)
           (imap ((fun i x => (length pre + i, x)) ∘ S) l)).
  { rewrite (IH (seen ∪ {[d]}) (pre ++ [d])).
    - rewrite <- app_assoc. simpl. f_equal. apply imap_ext. intros i x _. simpl.
      rewrite length_app. simpl. f_equal. lia.
    - intros x. rewrite elem_of_union, elem_of_singleton, elem_of_app, list_elem_of_singleton.
      by rewrite Hseen. }
  destruct (decide (d ∈ seen)) as [Hd|Hd], (decide (d ∈ pre)) as [Hp|Hp];
    try (exfalso; apply Hseen in Hd || apply Hseen in Hp; done).
  - transitivity (dedup_from (seen ∪ {[d]}) l); [|exact Hrest].
    apply dedup_from_ext. set_solver.
  - f_equal. exact Hrest.
Qed.

Lemma dedup_first_occurrences l : dedup l = first_occurrences l.
Proof.
  unfold dedup, first_occurrences.
  rewrite (dedup_from_positions ∅ [] l) by set_solver. reflexivity.
Qed.

(** C8. The deduplicated work list has every name of the list once, keeps
    of each name the first occurrence and drops the later ones, in the
    order of the list: a name [x] new after [l1] stands right after what
    is kept of [l1].  Names [a], [b], [a] of which [a] resolves to the
    directory [d] give [d] once, in first place. *)
Theorem dedup_keeps_first_occurrence :
  (∀ l, NoDup (dedup l))
  ∧ (∀ l x, x ∈ dedup l ↔ x ∈ l)
  ∧ (∀ l, dedup l = first_occurrences l)
  ∧ (∀ l1 x l2, x ∉ l1 → ∃ kept, dedup (l1 ++ x :: l2) = dedup l1 ++ x :: kept ∧ x ∉ kept)
  ∧ ((resolve_all Demo.sp ["a"; "b"; "a"] [] (Demo.world_of Demo.store_shared)).1
       = Ok ["d"; "b"; "d"]
     ∧ dedup ["d"; "b"; "d"] = ["d"; "b"]).
Proof.
  split; [|split; [|split; [|split]]].
  - intros l. apply NoDup_dedup_from.
  - intros l x. unfold dedup. rewrite elem_of_dedup_from. set_solver.
  - apply dedup_first_occurrences.
  - intros l1 x l2 Hx. unfold dedup. rewrite dedup_from_app. simpl.
    destruct (decide (x ∈ ∅ ∪ list_to_set l1)) as [Hin|_]; [set_solver|].
    eexists. split; [reflexivity|].
    rewrite elem_of_dedup_from. set_solver.
  - split; vm_compute; reflexivity.
Qed.

Lemma dedup_keeps_first_occurrence_witness :
  ("c" ∉ ["d"; "b"])
  ∧ (∃ kept, dedup (["d"; "b"] ++ "c" :: ["d"; "c"]) = dedup ["d"; "b"] ++ "c" :: kept
             ∧ "c" ∉ kept).
Proof.
  assert (Hnew : "c" ∉ ["d"; "b"]) by (apply (bool_decide_unpack _); vm_compute; exact I).
  split; [exact Hnew|].
  exact (proj1 (proj2 (proj2 (proj2 dedup_keeps_first_occurrence))) ["d"; "b"] "c" ["d"; "c"] Hnew).
Defined.

(** * Properties *)

(** ** Indexing Driver *)

Section DriverFacts.

Variable spawn : list string -> process_result.

Lemma index_directory_skip pkg_dir site_packages project index_dir w :
  Fs.is_dir (files w) (Fs.joinpath site_packages pkg_dir) = false →
  index_directory spawn pkg_dir site_packages project index_dir w
  = (Ok false,
     MkWorld (files w) (tmp w) (tmp_count w)
             (stdout w ++ ["  SKIP " +:+ pkg_dir +:+ " (not a directory)"]) (runs w)).
Proof.
  intros Hdir. unfold index_directory, mbind', get_files. simpl.
  rewrite Hdir. reflexivity.
Qed.

Lemma index_directory_exit pkg_dir site_packages project index_dir w returncode stderr :
  Fs.is_dir (files w) (Fs.joinpath site_packages pkg_dir) = true →
  spawn (command_of pkg_dir site_packages index_dir w) = Completed returncode stderr →
  index_directory spawn pkg_dir site_packages project index_dir w
  = if (returncode =? 0)%Z
    then (Ok true, after_exit pkg_dir site_packages project index_dir w
                     ("  OK   " +:+ pkg_dir +:+ " -> r:" +:+ project +:+ "/deps/" +:+ pkg_dir))
    else (Ok false, after_exit pkg_dir site_packages project index_dir w
                      ("  FAIL " +:+ pkg_dir +:+ ": " +:+ Py.strip stderr)).
Proof.
  intros Hdir Hrun. unfold index_directory, mbind', get_files. simpl.
  rewrite Hdir. simpl.
  unfold subprocess_run, named_temporary_file. simpl.
  unfold command_of in Hrun. rewrite Hrun.
  destruct (returncode =? 0)%Z; reflexivity.
Qed.

Lemma index_directory_not_started pkg_dir site_packages project index_dir w e :
  Fs.is_dir (files w) (Fs.joinpath site_packages pkg_dir) = true →
  spawn (command_of pkg_dir site_packages index_dir w) = NotStarted e →
  index_directory spawn pkg_dir site_packages project index_dir w
  = (Raise e,
     MkWorld (files w)
             (<[tmp_name (tmp_count w) := [("Name", project +:+ "/deps/" +:+ pkg_dir)]]> (tmp w))
             (S (tmp_count w)) (stdout w)
             (runs w ++ [command_of pkg_dir site_packages index_dir w])).
Proof.
  intros Hdir Hrun. unfold index_directory, mbind', get_files. simpl.
  rewrite Hdir. simpl.
  unfold subprocess_run, named_temporary_file. simpl.
  unfold command_of in Hrun. rewrite Hrun. reflexivity.
Qed.

(** A process that exits with a status other than zero is counted as
    failed. *)
Lemma failed_exit_is_counted pkg_dir rest site_packages project index_dir ok failed w
    returncode stderr :
  Fs.is_dir (files w) (Fs.joinpath site_packages pkg_dir) = true →
  spawn (command_of pkg_dir site_packages index_dir w) = Completed returncode stderr →
  returncode ≠ 0%Z →
  index_all spawn (pkg_dir :: rest) site_packages project index_dir ok failed w
  = index_all spawn rest site_packages project index_dir ok (failed + 1)
      (after_exit pkg_dir site_packages project index_dir w
         ("  FAIL " +:+ pkg_dir +:+ ": " +:+ Py.strip stderr)).
Proof.
  intros Hdir Hrun Hrc. simpl. unfold mbind' at 1.
  rewrite (index_directory_exit _ _ _ _ _ _ _ Hdir Hrun).
  destruct (Z.eqb_spec returncode 0) as [->|_]; [congruence | reflexivity].
Qed.



End DriverFacts.



(** ** Indexing Driver on concrete worlds *)


(** ** Name Resolver: the record path *)

Section ResolverFacts.

Variable fs : Fs.t.
Variable site_packages : Fs.path.

Lemma elem_of_add_line dirs line top :
  top ∈ add_line fs site_packages dirs line
  ↔ top ∈ dirs
    ∨ (qualifies fs site_packages top = true
       ∧ Py.contains "/" (Py.split_head "," line) = true
       ∧ Py.split_head "/" (Py.split_head "," line) = top).
Proof.
  unfold add_line.
  destruct (Py.contains "/" (Py.split_head "," line)) eqn:Hslash.
  - destruct (qualifies fs site_packages (Py.split_head "/" (Py.split_head "," line))) eqn:Hq.
    + rewrite elem_of_union, elem_of_singleton. split.
      * intros [? | ->]; auto.
      * intros [? | (_ & _ & <-)]; auto.
    + split; [auto|]. intros [? | (Hq' & _ & <-)]; [done | congruence].
  - split; [auto|]. intros [? | (_ & ? & _)]; [done | discriminate].
Qed.

Lemma elem_of_foldl_add_line lines dirs top :
  top ∈ foldl (add_line fs site_packages) dirs lines
  ↔ top ∈ dirs
    ∨ (qualifies fs site_packages top = true
       ∧ ∃ line, line ∈ lines
                 ∧ Py.contains "/" (Py.split_head "," line) = true
                 ∧ Py.split_head "/" (Py.split_head "," line) = top).
Proof.
  revert dirs. induction lines as [|line lines IH]; intros dirs; simpl.
  - split; [auto|]. intros [? | (_ & line & Hin & _)]; [done|]. by apply elem_of_nil in Hin.
  - rewrite IH, elem_of_add_line. split.
    + intros [[? | (Hq & Hs & Ht)]|(Hq & line' & Hin & Hs & Ht)]; auto.
      * right. split; [done|]. exists line. split; [left|done].
      * right. split; [done|]. exists line'. split; [by right|done].
    + intros [? | (Hq & line' & Hin & Hs & Ht)]; auto.
      apply elem_of_cons in Hin as [->|Hin]; [left; right; done|].
      right. split; [done|]. by exists line'.
Qed.

(** The set read from a record: the first segments it lists that pass
    the four conditions. *)
Lemma elem_of_record_dirs text top :
  top ∈ record_dirs fs site_packages text ↔ qualifies fs site_packages top = true ∧ lists text top.
Proof.
  unfold record_dirs, lists. rewrite elem_of_foldl_add_line.
  split; [intros [Hin|?]; [by apply not_elem_of_empty in Hin | done] | auto].
Qed.

Lemma elem_of_sorted (dirs : gset string) x : x ∈ sorted dirs ↔ x ∈ dirs.
Proof. unfold sorted. by rewrite merge_sort_Permutation, elem_of_elements. Qed.

Lemma sorted_is_sorted (dirs : gset string) :
  StronglySorted String.le (sorted dirs) ∧ NoDup (sorted dirs).
Proof.
  unfold sorted. split.
  - apply (StronglySorted_merge_sort String.le).
  - rewrite merge_sort_Permutation. apply NoDup_elements.
Qed.

Lemma read_text_exists p text :
  Fs.read_text fs p = Ok text → Fs.exists_ fs p = true.
Proof.
  unfold Fs.read_text, Fs.exists_. destruct (Fs.stat fs p) as [[]|]; done.
Qed.

(** The loop over two runs of entries. *)
Lemma scan_app pattern before after :
  scan fs site_packages pattern (before ++ after)
  = match scan fs site_packages pattern before with
    | Ok None => scan fs site_packages pattern after
    | r => r
    end.
Proof.
  induction before as [|d before IH]; simpl; [done|].
  destruct (negb (Py.endswith (Fs.name d) ".dist-info")); [done|].
  destruct (matches_dist pattern (Fs.name d)) as [[]|]; try done.
  destruct (negb (Fs.exists_ fs (Fs.joinpath d "RECORD"))); [done|].
  destruct (Fs.read_text fs (Fs.joinpath d "RECORD")) as [text|e]; simpl; [|done].
  destruct (decide (record_dirs fs site_packages text = ∅)); done.
Qed.

(** An entry that yields a set ends the loop. *)
Lemma scan_yields dist_name d dirs rest :
  yields fs site_packages dist_name d dirs →
  scan fs site_packages (name_pattern dist_name) (d :: rest) = Ok (Some (sorted dirs)).
Proof.
  intros (Hsuffix & Hmatch & (text & Htext & Hdirs) & Hne). simpl.
  rewrite Hsuffix, Hmatch. simpl.
  rewrite (read_text_exists _ _ Htext), Htext. simpl.
  rewrite Hdirs. by destruct (decide (dirs = ∅)).
Qed.

(** When the loop ends without a result, no entry yields a set. *)
Lemma scan_none dist_name entries :
  scan fs site_packages (name_pattern dist_name) entries = Ok None →
  ∀ d dirs, d ∈ entries → ¬ yields fs site_packages dist_name d dirs.
Proof.
  induction entries as [|e entries IH]; intros Hscan d dirs Hin Hy.
  - by apply elem_of_nil in Hin.
  - apply elem_of_cons in Hin as [->|Hin].
    + rewrite (scan_yields _ _ _ _ Hy) in Hscan. discriminate.
    + simpl in Hscan.
      destruct (negb (Py.endswith (Fs.name e) ".dist-info")); [by eapply IH|].
      destruct (matches_dist (name_pattern dist_name) (Fs.name e)) as [[]|];
        [|by eapply IH|done].
      destruct (negb (Fs.exists_ fs (Fs.joinpath e "RECORD"))); [by eapply IH|].
      destruct (Fs.read_text fs (Fs.joinpath e "RECORD")) as [text|]; simpl in Hscan; [|done].
      destruct (decide (record_dirs fs site_packages text = ∅)); [by eapply IH|done].
Qed.

(** A result of the loop is the sorted set of an entry that yields it. *)
Lemma scan_some dist_name entries l :
  scan fs site_packages (name_pattern dist_name) entries = Ok (Some l) →
  ∃ d dirs, d ∈ entries ∧ yields fs site_packages dist_name d dirs ∧ l = sorted dirs.
Proof.
  induction entries as [|e entries IH]; simpl; intros Hscan; [done|].
  assert (Hrest :
    scan fs site_packages (name_pattern dist_name) entries = Ok (Some l) →
    ∃ d dirs, d ∈ e :: entries ∧ yields fs site_packages dist_name d dirs ∧ l = sorted dirs).
  { intros H. destruct (IH H) as (d & dirs & Hin & Hy & ->).
    exists d, dirs. split; [by right|done]. }
  destruct (Py.endswith (Fs.name e) ".dist-info") eqn:Hsuffix; simpl in Hscan; [|auto].
  destruct (matches_dist (name_pattern dist_name) (Fs.name e)) as [[]|] eqn:Hmatch;
    [|auto|done].
  destruct (Fs.exists_ fs (Fs.joinpath e "RECORD")); simpl in Hscan; [|auto].
  destruct (Fs.read_text fs (Fs.joinpath e "RECORD")) as [text|] eqn:Htext;
    simpl in Hscan; [|done].
  destruct (decide (record_dirs fs site_packages text = ∅)) as [|Hne]; [auto|].
  injection Hscan as <-.
  exists e, (record_dirs fs site_packages text). split; [left|].
  split; [|done]. repeat split; eauto.
Qed.

(** Every name the record path returns passes the four conditions. *)
Lemma scan_qualifies dist_name entries l top :
  scan fs site_packages (name_pattern dist_name) entries = Ok (Some l) →
  top ∈ l → qualifies fs site_packages top = true.
Proof.
  intros Hscan Hin.
  destruct (scan_some _ _ _ Hscan) as (d & dirs & _ & (_ & _ & (text & _ & <-) & _) & ->).
  apply elem_of_sorted, elem_of_record_dirs in Hin. tauto.
Qed.

Lemma fallback_is_dir dist_name top :
  top ∈ fallback fs site_packages dist_name →
  top = normalized dist_name ∧ Fs.is_dir fs (Fs.joinpath site_packages top) = true.
Proof.
  unfold fallback.
  destruct (Fs.is_dir fs (Fs.joinpath site_packages (normalized dist_name))) eqn:Hdir.
  - intros ->%list_elem_of_singleton. done.
  - intros H. by apply elem_of_nil in H.
Qed.

Lemma fallback_length dist_name : length (fallback fs site_packages dist_name) ≤ 1.
Proof.
  unfold fallback.
  destruct (Fs.is_dir fs (Fs.joinpath site_packages (normalized dist_name))); simpl; lia.
Qed.

(** The two ways [resolve_package_dirs] returns. *)
Lemma resolve_cases dist_name l :
  resolve_package_dirs fs site_packages dist_name = Ok l →
  ∃ entries, Fs.iterdir fs site_packages = Ok entries
    ∧ (scan fs site_packages (name_pattern dist_name) entries = Ok (Some l)
       ∨ (scan fs site_packages (name_pattern dist_name) entries = Ok None
          ∧ l = fallback fs site_packages dist_name)).
Proof.
  unfold resolve_package_dirs.
  destruct (Fs.iterdir fs site_packages) as [entries|]; simpl; [|done].
  destruct (scan fs site_packages (name_pattern dist_name) entries) as [[found|]|] eqn:Hscan;
    simpl; intros [= <-]; exists entries; auto.
Qed.

(** Every name that is returned is a directory of the store. *)
Lemma resolve_is_dir dist_name l top :
  resolve_package_dirs fs site_packages dist_name = Ok l →
  top ∈ l → Fs.is_dir fs (Fs.joinpath site_packages top) = true.
Proof.
  intros Hres Hin.
  destruct (resolve_cases _ _ Hres) as (entries & _ & [Hscan|[_ ->]]).
  - pose proof (scan_qualifies _ _ _ _ Hscan Hin) as Hq.
    unfold qualifies in Hq. by apply andb_prop in Hq as [_ ?].
  - by apply fallback_is_dir in Hin as [_ ?].
Qed.

End ResolverFacts.

(** C2 as it is stated fails: with two metadata directories that match
    [foo], the directory [b] that the second one lists, and that exists,
    is not in the result. *)
Lemma listed_directory_left_out :
  ¬ (∀ fs site_packages dist_name entries d text X,
       Fs.iterdir fs site_packages = Ok entries →
       d ∈ entries →
       Py.endswith (Fs.name d) ".dist-info" = true →
       matches_dist (name_pattern dist_name) (Fs.name d) = Some true →
       Fs.read_text fs (Fs.joinpath d "RECORD") = Ok text →
       lists text X →
       qualifies fs site_packages X = true →
       ∃ l, resolve_package_dirs fs site_packages dist_name = Ok l ∧ X ∈ l).
Proof.
  intros Hclaim.
  destruct (Hclaim Demo.store_two_versions Demo.sp "foo"
              (map (Fs.child Demo.sp) ["foo-1.0.dist-info"; "foo-2.0.dist-info"; "a"; "b"])
              (Fs.child Demo.sp "foo-2.0.dist-info")
              ("b/__init__.py,," +:+ Demo.nl) "b") as (l & Hres & Hin).
  - vm_compute; reflexivity.
  - simpl. right. left.
  - vm_compute; reflexivity.
  - vm_compute; reflexivity.
  - vm_compute; reflexivity.
  - exists "b/__init__.py,,". split; [vm_compute; left | split; reflexivity].
  - vm_compute; reflexivity.
  - assert (Hcode : resolve_package_dirs Demo.store_two_versions Demo.sp "foo" = Ok ["a"])
      by (vm_compute; reflexivity).
    rewrite Hcode in Hres. injection Hres as <-.
    apply list_elem_of_singleton in Hin. discriminate.
Qed.

(** C6. [resolve_package_dirs] returns in one of two ways: with the
    sorted set of a matching metadata directory whose record yields a
    non-empty set, or, when no entry of the store is such a directory,
    with the result of the fallback, which has at most one name. *)
Theorem fallback_only_without_record fs site_packages dist_name entries l :
  Fs.iterdir fs site_packages = Ok entries →
  resolve_package_dirs fs site_packages dist_name = Ok l →
  (∃ d dirs, d ∈ entries ∧ yields fs site_packages dist_name d dirs ∧ l = sorted dirs)
  ∨ ((∀ d dirs, d ∈ entries → ¬ yields fs site_packages dist_name d dirs)
     ∧ l = fallback fs site_packages dist_name
     ∧ l = (if Fs.is_dir fs (Fs.joinpath site_packages (Py.replace_char "-" "_" (Py.lower dist_name)))
            then [Py.replace_char "-" "_" (Py.lower dist_name)] else [])
     ∧ length l ≤ 1).
Proof.
  intros Hiter Hres.
  destruct (resolve_cases _ _ _ _ Hres) as (entries' & Hiter' & Hscan).
  rewrite Hiter in Hiter'. injection Hiter' as <-.
  destruct Hscan as [Hsome|[Hnone ->]].
  - left. by apply scan_some.
  - right. split; [by apply scan_none|]. split; [done|]. split; [done|].
    apply fallback_length.
Qed.

Lemma fallback_only_without_record_witness :
  let entries := map (Fs.child Demo.sp) ["Foo-1.2.0.dist-info"; "foo"; "bar"] in
  (Fs.iterdir Demo.store1 Demo.sp = Ok entries
   ∧ resolve_package_dirs Demo.store1 Demo.sp "Bar" = Ok ["bar"])
  ∧ ((∃ d dirs, d ∈ entries ∧ yields Demo.store1 Demo.sp "Bar" d dirs ∧ ["bar"] = sorted dirs)
     ∨ ((∀ d dirs, d ∈ entries → ¬ yields Demo.store1 Demo.sp "Bar" d dirs)
        ∧ ["bar"] = fallback Demo.store1 Demo.sp "Bar"
        ∧ ["bar"] = (if Fs.is_dir Demo.store1 (Fs.joinpath Demo.sp (Py.replace_char "-" "_" (Py.lower "Bar")))
                     then [Py.replace_char "-" "_" (Py.lower "Bar")] else [])
        ∧ length ["bar"] ≤ 1)).
Proof.
  intros entries.
  assert (Hiter : Fs.iterdir Demo.store1 Demo.sp = Ok entries) by (vm_compute; reflexivity).
  assert (Hres : resolve_package_dirs Demo.store1 Demo.sp "Bar" = Ok ["bar"])
    by (vm_compute; reflexivity).
  split; [split; assumption|].
  exact (fallback_only_without_record Demo.store1 Demo.sp "Bar" entries ["bar"] Hiter Hres).
Defined.

(** ** What the record path returns, and what the fallback returns *)

Lemma split_without_separator c s : Py.contains c s = false → Py.split c s = [s].
Proof.
  induction s as [|x s IH]; simpl; [done|].
  destruct (Ascii.eqb x c); simpl; [done|]. intros Hs. by rewrite (IH Hs).
Qed.

Lemma split_head_no_separator c s : Py.contains c (Py.split_head c s) = false.
Proof.
  induction s as [|x s IH]; simpl; [done|].
  destruct (Ascii.eqb x c) eqn:Hx; simpl; [done|]. by rewrite Hx, IH.
Qed.

Lemma startswith_contains c s :
  Py.startswith s (String c EmptyString) = true → Py.contains c s = true.
Proof.
  destruct s as [|x s]; simpl; [done|].
  destruct (ascii_dec c x) as [->|]; [|done]. by rewrite Ascii.eqb_refl.
Qed.

Lemma locate_from_app acc l1 l2 :
  Fs.locate_from acc (l1 ++ l2) = Fs.locate_from (rev (Fs.locate_from acc l1)) l2.
Proof.
  revert acc. induction l1 as [|c l1 IH]; intros acc; simpl.
  - by rewrite rev_involutive.
  - destruct (String.eqb c ".."); apply IH.
Qed.

(** A first segment that is not [..] names the store itself or an entry
    of the store. *)
Lemma segment_inside fs site_packages top :
  Py.contains "/" top = false → String.eqb top ".." = false →
  Fs.inside fs site_packages (Fs.joinpath site_packages top).
Proof.
  intros Hslash Hdots. unfold Fs.inside, Fs.locate, Fs.joinpath.
  destruct (Py.startswith top "/") eqn:Hstart.
  { apply startswith_contains in Hstart. congruence. }
  assert (Hroot :
    Fs.from_root fs {| Fs.anchored := Fs.anchored site_packages;
                       Fs.comps := Fs.comps site_packages ++ Fs.parts top |}
    = Fs.from_root fs site_packages ++ Fs.parts top).
  { unfold Fs.from_root. simpl. destruct (Fs.anchored site_packages); [done|].
    by rewrite app_assoc. }
  rewrite Hroot, locate_from_app.
  unfold Fs.parts. rewrite (split_without_separator _ _ Hslash). simpl.
  destruct (negb (String.eqb top EmptyString) && negb (String.eqb top ".")); simpl.
  - rewrite Hdots, rev_involutive. by apply prefix_app_r.
  - by rewrite rev_involutive.
Qed.

Lemma qualifies_conditions fs site_packages top :
  qualifies fs site_packages top = true →
  Py.endswith top ".dist-info" = false
  ∧ Py.startswith top "_" = false
  ∧ String.eqb top ".." = false
  ∧ Fs.is_dir fs (Fs.joinpath site_packages top) = true.
Proof.
  unfold qualifies.
  intros [[[H1%negb_true_iff H2%negb_true_iff]%andb_prop H3%negb_true_iff]%andb_prop H4]%andb_prop.
  done.
Qed.

(** The names the record path returns: none ends with the metadata
    suffix, none starts with an underscore, none is [..], each is a
    directory of the store and denotes a location inside the store. *)
Lemma record_path_names fs site_packages dist_name entries l top :
  scan fs site_packages (name_pattern dist_name) entries = Ok (Some l) →
  top ∈ l →
  Py.endswith top ".dist-info" = false
  ∧ Py.startswith top "_" = false
  ∧ top ≠ ".."
  ∧ Fs.is_dir fs (Fs.joinpath site_packages top) = true
  ∧ Fs.inside fs site_packages (Fs.joinpath site_packages top).
Proof.
  intros Hscan Hin.
  destruct (scan_some _ _ _ _ _ Hscan) as (d & dirs & _ & (_ & _ & (text & _ & <-) & _) & ->).
  apply elem_of_sorted, elem_of_record_dirs in Hin as [Hq (line & _ & _ & Htop)].
  destruct (qualifies_conditions _ _ _ Hq) as (H1 & H2 & H3 & H4).
  repeat split; try done.
  - intros ->. discriminate H3.
  - apply segment_inside; [|done]. rewrite <- Htop. apply split_head_no_separator.
Qed.

Lemma endswith_contains c s suf :
  Py.endswith s suf = true → Py.contains c suf = true → Py.contains c s = true.
Proof.
  induction s as [|x s IH].
  - unfold Py.endswith. rewrite orb_false_r. by intros <-%String.eqb_eq.
  - change (Py.endswith (String x s) suf)
      with (String.eqb (String x s) suf || Py.endswith s suf).
    intros [<-%String.eqb_eq | Hend]%orb_prop Hc; [done|].
    simpl. rewrite (IH Hend Hc). apply orb_true_r.
Qed.

Lemma normalized_no_hyphen dist_name : Py.contains "-" (normalized dist_name) = false.
Proof.
  unfold normalized, Py.replace_char, Py.lower.
  induction dist_name as [|c s IH]; simpl; [done|].
  rewrite IH, orb_false_r. clear. each_char c; reflexivity.
Qed.

(** On both paths no name that is returned ends with the metadata
    suffix: the fallback's name has no hyphen. *)
Lemma resolve_never_metadata_suffix fs site_packages dist_name l top :
  resolve_package_dirs fs site_packages dist_name = Ok l →
  top ∈ l → Py.endswith top ".dist-info" = false.
Proof.
  intros Hres Hin.
  destruct (resolve_cases _ _ _ _ Hres) as (entries & _ & [Hscan|[_ ->]]).
  - by apply (record_path_names _ _ _ _ _ _ Hscan Hin).
  - apply fallback_is_dir in Hin as [-> _].
    destruct (Py.endswith (normalized dist_name) ".dist-info") eqn:Hend; [|done].
    apply (endswith_contains "-") in Hend; [|reflexivity].
    by rewrite normalized_no_hyphen in Hend.
Qed.

(** The fallback returns a name that starts with an underscore exactly
    for a distribution name that starts with [_] or [-]. *)
Lemma fallback_underscore fs site_packages dist_name top :
  top ∈ fallback fs site_packages dist_name →
  Py.startswith top "_" = Py.startswith dist_name "_" || Py.startswith dist_name "-".
Proof.
  intros [-> _]%fallback_is_dir.
  destruct dist_name as [|c s]; [done|].
  unfold normalized, Py.replace_char, Py.lower, Py.startswith. simpl.
  destruct s; each_char c; reflexivity.
Qed.

(** ** Name Resolver: the fallback path on concrete stores *)

(** C1. The names [my-pkg] and [my.pkg] differ only in a separator, and
    the store holds the directory [my_pkg] without metadata: the
    fallback finds it for the first name and nothing for the second,
    because it replaces [-] but not [.]. *)
Theorem fallback_tells_dot_from_hyphen :
  sep_case_equiv "my-pkg" "my.pkg" = true
  ∧ resolve_package_dirs Demo.store_plain Demo.sp "my-pkg" = Ok ["my_pkg"]
  ∧ resolve_package_dirs Demo.store_plain Demo.sp "my.pkg" = Ok []
  ∧ normalized "my-pkg" = "my_pkg"
  ∧ normalized "my.pkg" = "my.pkg".
Proof. repeat split; vm_compute; reflexivity. Qed.

(** C3. The store holds the directory [_private] without metadata: for
    the name [_private] the fallback returns it, a name that starts with
    an underscore, which the record path would have left out. *)
Theorem fallback_returns_underscore_name :
  resolve_package_dirs Demo.store_plain Demo.sp "_private" = Ok ["_private"]
  ∧ Py.startswith "_private" "_" = true
  ∧ qualifies Demo.store_plain Demo.sp "_private" = false.
Proof. repeat split; vm_compute; reflexivity. Qed.

(** C4. For the name [..] the fallback returns [..], which the record
    path would have left out; joined to the store it denotes the
    directory above the store, and a run hands that directory to the
    indexer. *)
Theorem fallback_leaves_the_store :
  resolve_package_dirs Demo.store_plain Demo.sp ".." = Ok [".."]
  ∧ qualifies Demo.store_plain Demo.sp ".." = false
  ∧ Fs.locate Demo.store_plain (Fs.joinpath Demo.sp "..") = ["venv"; "lib"; "python3.11"]
  ∧ ¬ Fs.inside Demo.store_plain Demo.sp (Fs.joinpath Demo.sp "..")
  ∧ runs (main Demo.succeeds Demo.no_toml (Demo.run_with [".."])
               (Demo.world_of Demo.store_plain)).2
    = [["zoekt-index"; "-index"; "/index"; "-meta"; "/tmp/tmp0.meta.json";
        "/venv/lib/python3.11/site-packages/.."]].
Proof.
  split; [vm_compute; reflexivity|].
  split; [vm_compute; reflexivity|].
  split; [vm_compute; reflexivity|].
  split; [|vm_compute; reflexivity].
  intros [k Hk]. vm_compute in Hk. discriminate.
Qed.


(** ** The pattern of a distribution name *)

Lemma is_sep_cases c : Re.is_sep c = true → c = "-"%char ∨ c = "_"%char ∨ c = "."%char.
Proof. each_char c; vm_compute; intros H; try discriminate H; auto. Qed.

Lemma not_special_literal c :
  Re.is_special c = false →
  Ascii.eqb c "\" = false ∧ Ascii.eqb c "[" = false ∧ Ascii.eqb c "." = false
  ∧ Ascii.eqb c "^" = false ∧ Re.is_operator c = false.
Proof. each_char c; vm_compute; intros H; try discriminate H; auto. Qed.

Lemma special_not_alnum c : Re.is_special c = true → Py.is_alnum c = false.
Proof. each_char c; vm_compute; intros H; try discriminate H; auto. Qed.

Lemma is_sep_lower c : Re.is_sep (Py.lower_char c) = Re.is_sep c.
Proof. each_char c; reflexivity. Qed.

Lemma backslash_lower c : Ascii.eqb (Py.lower_char c) "\" = Ascii.eqb c "\".
Proof. each_char c; reflexivity. Qed.

(** One character of the name, in the pattern. *)
Lemma sub_seps_escape_cons c rest :
  Re.sub_seps (Re.escape (String c rest))
  = if Ascii.eqb c "\" then
      match rest with
      | String d rest' =>
          if Ascii.eqb d "_" then "\[-_.]" +:+ Re.sub_seps (Re.escape rest')
          else "\\" +:+ Re.sub_seps (Re.escape rest)
      | EmptyString => "\\"
      end
    else if Re.is_sep c then "[-_.]" +:+ Re.sub_seps (Re.escape rest)
    else if Re.is_special c then String "\" (String c (Re.sub_seps (Re.escape rest)))
    else String c (Re.sub_seps (Re.escape rest)).
Proof.
  destruct (Ascii.eqb_spec c "\") as [-> | Hc].
  - destruct rest as [|d rest']; [reflexivity|].
    destruct (Ascii.eqb_spec d "_") as [-> | Hd]; [reflexivity|].
    change (Re.escape (String "\" (String d rest')))
      with (String "\" (String "\" (Re.escape (String d rest')))).
    change (Re.sub_seps (String "\" (String "\" (Re.escape (String d rest')))))
      with (String "\" (Re.sub_seps (String "\" (Re.escape (String d rest'))))).
    change ("\\" +:+ Re.sub_seps (Re.escape (String d rest')))
      with (String "\" (String "\" (Re.sub_seps (Re.escape (String d rest'))))).
    f_equal. simpl Re.escape.
    destruct (Re.is_special d) eqn:Hsp; [reflexivity|].
    destruct (Re.is_sep d) eqn:Hsep.
    + apply is_sep_cases in Hsep as [-> | [-> | ->]]; done.
    + simpl. by rewrite Hsep.
  - apply Ascii.eqb_neq in Hc.
    destruct (Re.is_sep c) eqn:Hsep.
    + apply is_sep_cases in Hsep as [-> | [-> | ->]]; reflexivity.
    + simpl Re.escape. destruct (Re.is_special c) eqn:Hsp; simpl; by rewrite ?Hc, ?Hsep.
Qed.

Lemma sub_backslash_end : Re.sub_seps (Re.escape "\") = "\\".
Proof. reflexivity. Qed.

Lemma sub_backslash_underscore rest :
  Re.sub_seps (Re.escape (String "\" (String "_" rest)))
  = "\[-_.]" +:+ Re.sub_seps (Re.escape rest).
Proof. exact (sub_seps_escape_cons "\" (String "_" rest)). Qed.

Lemma sub_backslash_other d rest :
  Ascii.eqb d "_" = false →
  Re.sub_seps (Re.escape (String "\" (String d rest)))
  = "\\" +:+ Re.sub_seps (Re.escape (String d rest)).
Proof.
  intros Hd. rewrite (sub_seps_escape_cons "\" (String d rest)).
  change (Ascii.eqb "\" "\") with true. cbv iota. by rewrite Hd.
Qed.

Lemma sub_separator c rest :
  Re.is_sep c = true →
  Re.sub_seps (Re.escape (String c rest)) = "[-_.]" +:+ Re.sub_seps (Re.escape rest).
Proof.
  intros Hsep. rewrite sub_seps_escape_cons, Hsep.
  by apply is_sep_cases in Hsep as [-> | [-> | ->]].
Qed.

Lemma sub_special c rest :
  Ascii.eqb c "\" = false → Re.is_sep c = false → Re.is_special c = true →
  Re.sub_seps (Re.escape (String c rest))
  = String "\" (String c (Re.sub_seps (Re.escape rest))).
Proof. intros Hc Hsep Hsp. by rewrite sub_seps_escape_cons, Hc, Hsep, Hsp. Qed.

Lemma sub_ordinary c rest :
  Ascii.eqb c "\" = false → Re.is_sep c = false → Re.is_special c = false →
  Re.sub_seps (Re.escape (String c rest)) = String c (Re.sub_seps (Re.escape rest)).
Proof. intros Hc Hsep Hsp. by rewrite sub_seps_escape_cons, Hc, Hsep, Hsp. Qed.

Lemma atom_of_not_sep c : Re.is_sep c = false → atom_of c = Re.Lit c.
Proof. unfold atom_of. by intros ->. Qed.

Lemma atom_of_sep c :
  Re.is_sep c = true → atom_of c = Re.OneOf [Re.IChar "-"; Re.IChar "_"; Re.IChar "."].
Proof. unfold atom_of. by intros ->. Qed.

Lemma pattern_atoms_cons c rest :
  Ascii.eqb c "\" = false → pattern_atoms (String c rest) = atom_of c :: pattern_atoms rest.
Proof. intros Hc. simpl. by rewrite Hc. Qed.

Lemma parse_escaped c p :
  Py.is_alnum c = false →
  Re.parse Re.Top (String "\" (String c p)) = cons (Re.Lit c) <$> Re.parse Re.Top p.
Proof. intros Hc. simpl. by rewrite Hc. Qed.

Lemma parse_ordinary c p :
  Re.is_special c = false →
  Re.parse Re.Top (String c p) = cons (Re.Lit c) <$> Re.parse Re.Top p.
Proof.
  intros Hsp. destruct (not_special_literal _ Hsp) as (H1 & H2 & H3 & H4 & H5).
  simpl. by rewrite H1, H2, H3, H4, H5.
Qed.

Lemma parse_separators p :
  Re.parse Re.Top ("[-_.]" +:+ p)
  = cons (Re.OneOf [Re.IChar "-"; Re.IChar "_"; Re.IChar "."]) <$> Re.parse Re.Top p.
Proof. reflexivity. Qed.

(** One character of the name and the rest of the pattern. *)
Lemma parse_name_char c rest tail front atoms :
  (Ascii.eqb c "\" = false ∨ ∀ d rest', rest = String d rest' → Ascii.eqb d "_" = false) →
  Re.parse Re.Top (Re.sub_seps (Re.escape rest) +:+ tail) = Some atoms →
  front = (if Ascii.eqb c "\" then Re.Lit c else atom_of c) →
  Re.parse Re.Top (Re.sub_seps (Re.escape (String c rest)) +:+ tail) = Some (front :: atoms).
Proof.
  intros Hnext Hrest ->.
  destruct (Ascii.eqb_spec c "\") as [-> | Hc].
  - destruct Hnext as [Hbs | Hnext]; [discriminate Hbs|].
    destruct rest as [|d rest'].
    + rewrite sub_backslash_end. change (Re.sub_seps (Re.escape EmptyString)) with EmptyString in Hrest.
      rewrite app_empty in Hrest. rewrite !app_cons, app_empty, parse_escaped by reflexivity.
      by rewrite Hrest.
    + rewrite (sub_backslash_other d rest') by eauto.
      rewrite !app_cons, app_empty, parse_escaped by reflexivity. by rewrite Hrest.
  - apply Ascii.eqb_neq in Hc.
    destruct (Re.is_sep c) eqn:Hsep.
    + rewrite (sub_separator _ _ Hsep), (atom_of_sep _ Hsep).
      change (("[-_.]" +:+ Re.sub_seps (Re.escape rest)) +:+ tail)
        with ("[-_.]" +:+ (Re.sub_seps (Re.escape rest) +:+ tail)).
      by rewrite parse_separators, Hrest.
    + rewrite (atom_of_not_sep _ Hsep). destruct (Re.is_special c) eqn:Hsp.
      * rewrite (sub_special _ _ Hc Hsep Hsp), !app_cons,
          (parse_escaped _ _ (special_not_alnum _ Hsp)). by rewrite Hrest.
      * rewrite (sub_ordinary _ _ Hc Hsep Hsp), !app_cons, (parse_ordinary _ _ Hsp).
        by rewrite Hrest.
Qed.

(** The pattern of a name always parses, to [pattern_atoms]. *)
Lemma parse_name_pattern dist_name :
  ∀ tail atoms,
    Re.parse Re.Top tail = Some atoms →
    Re.parse Re.Top (name_pattern dist_name +:+ tail)
    = Some (pattern_atoms dist_name ++ atoms).
Proof.
  unfold name_pattern.
  enough (H : (∀ tail atoms, Re.parse Re.Top tail = Some atoms →
                 Re.parse Re.Top (Re.sub_seps (Re.escape dist_name) +:+ tail)
                 = Some (pattern_atoms dist_name ++ atoms))
              ∧ (∀ c tail atoms, Re.parse Re.Top tail = Some atoms →
                 Re.parse Re.Top (Re.sub_seps (Re.escape (String c dist_name)) +:+ tail)
                 = Some (pattern_atoms (String c dist_name) ++ atoms)))
    by apply H.
  induction dist_name as [|d rest [IH0 IH1]].
  - split; [intros tail atoms Htail; exact Htail|].
    intros c tail atoms Htail.
    replace (pattern_atoms (String c EmptyString) ++ atoms)
      with ((if Ascii.eqb c "\" then Re.Lit c else atom_of c) :: atoms)
      by (simpl; by destruct (Ascii.eqb c "\")).
    apply parse_name_char; [right; discriminate | exact Htail | reflexivity].
  - split; [exact (IH1 d)|].
    intros c tail atoms Htail.
    destruct (Ascii.eqb c "\" && Ascii.eqb d "_") eqn:Hmis.
    + apply andb_prop in Hmis as [->%Ascii.eqb_eq ->%Ascii.eqb_eq].
      rewrite sub_backslash_underscore.
      rewrite !app_cons, app_empty. simpl Re.parse.
      rewrite (IH0 _ _ Htail). reflexivity.
    + replace (pattern_atoms (String c (String d rest)) ++ atoms)
        with ((if Ascii.eqb c "\" then Re.Lit c else atom_of c)
              :: (pattern_atoms (String d rest) ++ atoms)).
      * apply parse_name_char; [|by apply IH1|reflexivity].
        apply andb_false_iff in Hmis as [Hc | Hd]; [by left|right].
        by intros d' rest' [= <- <-].
      * change (pattern_atoms (String c (String d rest)))
          with (if Ascii.eqb c "\" then
                  (if Ascii.eqb d "_"
                   then [Re.Lit "["; Re.Lit "-"; Re.Lit "_"; Re.AnyChar; Re.Lit "]"]
                        ++ pattern_atoms rest
                   else Re.Lit c :: pattern_atoms (String d rest))
                else atom_of c :: pattern_atoms (String d rest)).
        destruct (Ascii.eqb c "\"); [|reflexivity].
        simpl in Hmis. by rewrite Hmis.
Qed.

(** The truth value of a match, by the atoms of the name: [re.match]
    never fails on the pattern of a name. *)
Lemma matches_dist_atoms dist_name name :
  matches_dist (name_pattern dist_name) name
  = Some (Re.match_atoms true true
            (pattern_atoms dist_name ++ [Re.Lit "-"; Re.OneOf [Re.IDigit]]) name).
Proof.
  unfold matches_dist, Re.re_match.
  change (Re.parse Re.Top ("^" +:+ name_pattern dist_name +:+ "-[\d]"))
    with (cons Re.Bol <$> Re.parse Re.Top (name_pattern dist_name +:+ "-[\d]")).
  rewrite (parse_name_pattern dist_name "-[\d]" [Re.Lit "-"; Re.OneOf [Re.IDigit]])
    by reflexivity.
  reflexivity.
Qed.

(** ** Names that differ in separators and case, on the record path *)

Lemma same_char_sep x y : same_char x y = true → Re.is_sep x = Re.is_sep y.
Proof.
  unfold same_char. intros [[-> ->]%andb_prop | Heq%Ascii.eqb_eq]%orb_prop; [done|].
  by rewrite <- (is_sep_lower x), <- (is_sep_lower y), Heq.
Qed.

Lemma sep_not_backslash c : Re.is_sep c = true → Ascii.eqb c "\" = false.
Proof. by intros [-> | [-> | ->]]%is_sep_cases. Qed.

Lemma same_char_backslash x y :
  same_char x y = true → Ascii.eqb x "\" = Ascii.eqb y "\".
Proof.
  unfold same_char. intros [[Hx Hy]%andb_prop | Heq%Ascii.eqb_eq]%orb_prop.
  - by rewrite (sep_not_backslash _ Hx), (sep_not_backslash _ Hy).
  - by rewrite <- (backslash_lower x), <- (backslash_lower y), Heq.
Qed.

Lemma same_char_atom x y z :
  same_char x y = true →
  Re.atom_matches true (atom_of x) z = Re.atom_matches true (atom_of y) z.
Proof.
  intros Hxy. pose proof (same_char_sep _ _ Hxy) as Hsep.
  unfold atom_of. rewrite <- Hsep. destruct (Re.is_sep x) eqn:Hx; [done|].
  unfold same_char in Hxy. rewrite Hx in Hxy. simpl in Hxy.
  apply Ascii.eqb_eq in Hxy. simpl. by rewrite Hxy.
Qed.

Lemma match_atoms_atom_of ignorecase at_start c atoms s :
  Re.match_atoms ignorecase at_start (atom_of c :: atoms) s
  = match s with
    | EmptyString => false
    | String x s' =>
        Re.atom_matches ignorecase (atom_of c) x && Re.match_atoms ignorecase false atoms s'
    end.
Proof. unfold atom_of. by destruct (Re.is_sep c). Qed.

Lemma underscore_is_sep d : Ascii.eqb d "_" = true → Re.is_sep d = true.
Proof. by intros ->%Ascii.eqb_eq. Qed.

(** Without a backslash before a separator, every character of the name
    stands for its own matcher. *)
Lemma plain_pattern_atoms a :
  plain a = true → pattern_atoms a = map atom_of (list_ascii_of_string a).
Proof.
  induction a as [|c a IH]; [done|].
  intros Hplain. apply andb_prop in Hplain as [Hhead Hplain].
  specialize (IH Hplain).
  destruct (Ascii.eqb c "\") eqn:Hc.
  - destruct a as [|d a'].
    + simpl. rewrite Hc. by rewrite atom_of_not_sep by by apply Ascii.eqb_eq in Hc as ->.
    + simpl in Hhead. apply negb_true_iff in Hhead.
      assert (Hd : Ascii.eqb d "_" = false).
      { destruct (Ascii.eqb d "_") eqn:Hd; [|done].
        by rewrite (underscore_is_sep _ Hd) in Hhead. }
      change (pattern_atoms (String c (String d a')))
        with (if Ascii.eqb c "\" then
                (if Ascii.eqb d "_"
                 then [Re.Lit "["; Re.Lit "-"; Re.Lit "_"; Re.AnyChar; Re.Lit "]"]
                      ++ pattern_atoms a'
                 else Re.Lit c :: pattern_atoms (String d a'))
              else atom_of c :: pattern_atoms (String d a')).
      rewrite Hc, Hd, IH.
      change (list_ascii_of_string (String c (String d a')))
        with (c :: list_ascii_of_string (String d a')).
      simpl map. f_equal. apply Ascii.eqb_eq in Hc as ->. reflexivity.
  - rewrite (pattern_atoms_cons _ _ Hc), IH. reflexivity.
Qed.

Lemma plain_equiv a b : sep_case_equiv a b = true → plain a = true → plain b = true.
Proof.
  revert b. induction a as [|x a IH]; intros [|y b]; try done.
  intros [Hxy Hab]%andb_prop [Hhead Hplain]%andb_prop.
  apply andb_true_intro. split; [|by apply (IH b)].
  destruct a as [|x' a'], b as [|y' b']; try done.
  simpl in Hab. apply andb_prop in Hab as [Hxy' _].
  by rewrite <- (same_char_backslash _ _ Hxy), <- (same_char_sep _ _ Hxy').
Qed.

Lemma match_atoms_equiv a b :
  sep_case_equiv a b = true →
  ∀ at_start tail s,
    Re.match_atoms true at_start (map atom_of (list_ascii_of_string a) ++ tail) s
    = Re.match_atoms true at_start (map atom_of (list_ascii_of_string b) ++ tail) s.
Proof.
  revert b. induction a as [|x a IH]; intros [|y b]; try done.
  intros [Hxy Hab]%andb_prop at_start tail s.
  cbn [list_ascii_of_string map app].
  rewrite !match_atoms_atom_of. destruct s as [|z s]; [done|].
  by rewrite (same_char_atom _ _ z Hxy), (IH b Hab).
Qed.

(** Two names that differ only in separators and case, without a
    backslash before a separator, match the same entries of the store. *)
Lemma matches_dist_equiv a b name :
  sep_case_equiv a b = true → plain a = true →
  matches_dist (name_pattern a) name = matches_dist (name_pattern b) name.
Proof.
  intros Hab Hplain. rewrite !matches_dist_atoms.
  rewrite (plain_pattern_atoms a Hplain), (plain_pattern_atoms b (plain_equiv _ _ Hab Hplain)).
  by rewrite (match_atoms_equiv a b Hab).
Qed.

(** The record path does not tell such names apart, and neither does the
    whole resolution when the fallback normalizes them to one name. *)
Lemma record_path_equiv fs site_packages a b :
  sep_case_equiv a b = true → plain a = true →
  (∀ entries, scan fs site_packages (name_pattern a) entries
              = scan fs site_packages (name_pattern b) entries)
  ∧ (normalized a = normalized b →
     resolve_package_dirs fs site_packages a = resolve_package_dirs fs site_packages b).
Proof.
  intros Hab Hplain.
  assert (Hscan : ∀ entries, scan fs site_packages (name_pattern a) entries
                             = scan fs site_packages (name_pattern b) entries).
  { induction entries as [|d entries IH]; simpl; [done|].
    by rewrite (matches_dist_equiv a b _ Hab Hplain), IH. }
  split; [exact Hscan|].
  intros Hnorm. unfold resolve_package_dirs, fallback.
  destruct (Fs.iterdir fs site_packages) as [entries|]; simpl; [|done].
  by rewrite Hscan, Hnorm.
Qed.

(** A backslash before an underscore is read differently from a
    backslash before a hyphen. *)
Lemma backslash_underscore_pattern :
  sep_case_equiv "a\-b" "a\_b" = true
  ∧ name_pattern "a\-b" = "a\\[-_.]b"
  ∧ name_pattern "a\_b" = "a\[-_.]b"
  ∧ matches_dist (name_pattern "a\-b") "a\-b-1.0.dist-info" = Some true
  ∧ matches_dist (name_pattern "a\_b") "a\-b-1.0.dist-info" = Some false.
Proof. repeat split; vm_compute; reflexivity. Qed.

(** ** The metadata directory that decides *)

Lemma no_qualifying_is_empty fs site_packages text :
  (∀ Y, lists text Y → qualifies fs site_packages Y = false) →
  record_dirs fs site_packages text = ∅.
Proof.
  intros Hnone. apply set_eq. intros Y. rewrite elem_of_record_dirs. split.
  - intros [Hq Hl]. rewrite (Hnone Y Hl) in Hq. discriminate.
  - intros H. by apply not_elem_of_empty in H.
Qed.

(** The loop passes over entries that are passed over. *)
Lemma scan_passed_over fs site_packages dist_name entries :
  (∀ e, e ∈ entries → passed_over fs site_packages dist_name e) →
  scan fs site_packages (name_pattern dist_name) entries = Ok None.
Proof.
  induction entries as [|e entries IH]; intros Hall; [done|]. simpl.
  assert (Hrest : scan fs site_packages (name_pattern dist_name) entries = Ok None).
  { apply IH. intros e' He'. apply Hall. by right. }
  destruct (Hall e) as [Hsuffix | [Hmatch | [Hexists | (text & Htext & Hnone)]]]; [left|..].
  - by rewrite Hsuffix.
  - destruct (negb _); [done|]. by rewrite Hmatch.
  - destruct (negb _); [done|]. rewrite matches_dist_atoms.
    destruct (Re.match_atoms _ _ _ _); [|done]. by rewrite Hexists.
  - destruct (negb _); [done|]. rewrite matches_dist_atoms.
    destruct (Re.match_atoms _ _ _ _); [|done].
    rewrite (read_text_exists _ _ _ Htext), Htext. simpl.
    rewrite (no_qualifying_is_empty _ _ _ Hnone). by destruct (decide (∅ = ∅)).
Qed.

(** C2, as the code has it. Let [d] be a metadata directory that matches
    the name and whose record is read, every entry enumerated before it
    being passed over by the loop.  Then every first segment [X] that
    the record of [d] lists, that passes the conditions and is a
    directory of the store, is in the result; the result holds exactly
    the first segments this record lists that pass the conditions, so
    nothing enters it from a metadata directory enumerated after [d].
    And a name whose path under the store is not a directory is in no
    result, listed or not. *)
Theorem first_yielding_record_decides fs site_packages dist_name :
  (∀ before d after text X,
     Fs.iterdir fs site_packages = Ok (before ++ d :: after) →
     (∀ e, e ∈ before → passed_over fs site_packages dist_name e) →
     Py.endswith (Fs.name d) ".dist-info" = true →
     matches_dist (name_pattern dist_name) (Fs.name d) = Some true →
     Fs.read_text fs (Fs.joinpath d "RECORD") = Ok text →
     lists text X →
     qualifies fs site_packages X = true →
     ∃ l, resolve_package_dirs fs site_packages dist_name = Ok l
          ∧ X ∈ l
          ∧ ∀ Y, Y ∈ l ↔ lists text Y ∧ qualifies fs site_packages Y = true)
  ∧ (∀ l X,
       resolve_package_dirs fs site_packages dist_name = Ok l →
       Fs.is_dir fs (Fs.joinpath site_packages X) = false →
       X ∉ l).
Proof.
  split.
  - intros before d after text X Hiter Hbefore Hsuffix Hmatch Htext Hlist Hq.
    assert (HX : X ∈ record_dirs fs site_packages text)
      by (apply elem_of_record_dirs; done).
    assert (Hy : yields fs site_packages dist_name d (record_dirs fs site_packages text)).
    { repeat split; eauto. intros Hempty. rewrite Hempty in HX.
      by apply not_elem_of_empty in HX. }
    exists (sorted (record_dirs fs site_packages text)).
    split; [|split].
    + unfold resolve_package_dirs. rewrite Hiter. simpl.
      rewrite scan_app, (scan_passed_over _ _ _ _ Hbefore), (scan_yields _ _ _ _ _ _ Hy).
      reflexivity.
    + by apply elem_of_sorted.
    + intros Y. rewrite elem_of_sorted, elem_of_record_dirs. tauto.
  - intros l X Hres Hdir Hin.
    rewrite (resolve_is_dir _ _ _ _ _ Hres Hin) in Hdir. discriminate.
Qed.

Lemma first_yielding_record_decides_witness :
  let fs := Cases3.store_many in
  let before := map (Fs.child Demo.sp) ["README.txt"; "bar-1.0.dist-info"; "foo-0.9.dist-info"] in
  let d := Fs.child Demo.sp "Foo-1.2.0.dist-info" in
  let after := map (Fs.child Demo.sp) ["foo-2.0.dist-info"; "foo"; "bar"; "extra"] in
  let text := "foo/__init__.py,," +:+ Demo.nl +:+ "old/__init__.py,," +:+ Demo.nl in
  (Fs.iterdir fs Demo.sp = Ok (before ++ d :: after)
   ∧ (∀ e, e ∈ before → passed_over fs Demo.sp "foo" e)
   ∧ Py.endswith (Fs.name d) ".dist-info" = true
   ∧ matches_dist (name_pattern "foo") (Fs.name d) = Some true
   ∧ Fs.read_text fs (Fs.joinpath d "RECORD") = Ok text
   ∧ lists text "foo"
   ∧ qualifies fs Demo.sp "foo" = true)
  ∧ (∃ l, resolve_package_dirs fs Demo.sp "foo" = Ok l
          ∧ "foo" ∈ l
          ∧ ∀ Y, Y ∈ l ↔ lists text Y ∧ qualifies fs Demo.sp Y = true)
  ∧ (lists text "old"
     ∧ resolve_package_dirs fs Demo.sp "foo" = Ok ["foo"]
     ∧ Fs.is_dir fs (Fs.joinpath Demo.sp "old") = false
     ∧ "old" ∉ ["foo"]).
Proof.
  intros fs before d after text.
  assert (Hfoo : lists text "foo").
  { exists "foo/__init__.py,,". split; [vm_compute; left | split; reflexivity]. }
  assert (Hold : lists text "old").
  { exists "old/__init__.py,,". split; [vm_compute; right; left | split; reflexivity]. }
  assert (H1 : Fs.iterdir fs Demo.sp = Ok (before ++ d :: after)) by (vm_compute; reflexivity).
  assert (H2 : ∀ e, e ∈ before → passed_over fs Demo.sp "foo" e).
  { intros e He. unfold before in He. simpl in He.
    apply elem_of_cons in He as [-> | He]; [left; vm_compute; reflexivity|].
    apply elem_of_cons in He as [-> | He]; [right; left; vm_compute; reflexivity|].
    apply list_elem_of_singleton in He as ->. do 3 right.
    exists ("gone/__init__.py,," +:+ Demo.nl). split; [vm_compute; reflexivity|].
    intros Y (line & Hline & _ & <-). vm_compute in Hline.
    apply list_elem_of_singleton in Hline as ->. vm_compute. reflexivity. }
  assert (H3 : Py.endswith (Fs.name d) ".dist-info" = true) by (vm_compute; reflexivity).
  assert (H4 : matches_dist (name_pattern "foo") (Fs.name d) = Some true)
    by (vm_compute; reflexivity).
  assert (H5 : Fs.read_text fs (Fs.joinpath d "RECORD") = Ok text) by (vm_compute; reflexivity).
  assert (H7 : qualifies fs Demo.sp "foo" = true) by (vm_compute; reflexivity).
  assert (Hres : resolve_package_dirs fs Demo.sp "foo" = Ok ["foo"]) by (vm_compute; reflexivity).
  assert (Hdir : Fs.is_dir fs (Fs.joinpath Demo.sp "old") = false) by (vm_compute; reflexivity).
  split; [repeat split; assumption|].
  split.
  - exact (proj1 (first_yielding_record_decides fs Demo.sp "foo") _ _ _ _ _ H1 H2 H3 H4 H5 Hfoo H7).
  - split; [exact Hold|]. split; [exact Hres|]. split; [exact Hdir|].
    exact (proj2 (first_yielding_record_decides fs Demo.sp "foo") _ _ Hres Hdir).
Defined.

(** * Further properties of the program *)

(** ** Which entries of the store match a name *)

Lemma hyphen_lower x : Ascii.eqb (Py.lower_char "-") (Py.lower_char x) = Ascii.eqb "-" x.
Proof. each_char x; reflexivity. Qed.

Lemma separators_match z :
  existsb (fun i => Re.item_matches true i z) [Re.IChar "-"; Re.IChar "_"; Re.IChar "."]
  = Re.is_sep z.
Proof. each_char z; reflexivity. Qed.

Lemma atom_of_matches x z : Re.atom_matches true (atom_of x) z = same_char x z.
Proof.
  unfold atom_of, same_char. destruct (Re.is_sep x) eqn:Hx.
  - apply is_sep_cases in Hx as [-> | [-> | ->]]; each_char z; reflexivity.
  - reflexivity.
Qed.

Lemma version_follows at_start s :
  Re.match_atoms true at_start [Re.Lit "-"; Re.OneOf [Re.IDigit]] s = true
  ↔ ∃ c rest, s = String "-" (String c rest) ∧ Py.is_digit c = true.
Proof.
  destruct s as [|x [|c rest]];
    cbn [Re.match_atoms Re.atom_matches Re.item_matches existsb].
  - split; [done | by intros (? & ? & ? & _)].
  - rewrite andb_false_r. split; [done | by intros (? & ? & ? & _)].
  - rewrite hyphen_lower, orb_false_r, andb_true_r. split.
    + intros [<-%Ascii.eqb_eq Hc]%andb_prop. eauto.
    + intros (c' & rest' & [= -> -> ->] & Hc). by rewrite Hc.
Qed.

Lemma name_then_version a :
  ∀ at_start s,
    Re.match_atoms true at_start
      (map atom_of (list_ascii_of_string a) ++ [Re.Lit "-"; Re.OneOf [Re.IDigit]]) s = true
    ↔ ∃ pre c rest, s = pre +:+ String "-" (String c rest)
                    ∧ sep_case_equiv a pre = true ∧ Py.is_digit c = true.
Proof.
  induction a as [|x a IH]; intros at_start s.
  - cbn [list_ascii_of_string map app]. rewrite version_follows. split.
    + intros (c & rest & -> & Hc). by exists EmptyString, c, rest.
    + intros (pre & c & rest & -> & Hpre & Hc). destruct pre; [eauto | done].
  - cbn [list_ascii_of_string map app]. rewrite match_atoms_atom_of.
    destruct s as [|z s].
    + split; [done|]. intros (pre & c & rest & Hs & Hpre & _). by destruct pre.
    + rewrite atom_of_matches, andb_true_iff, IH. split.
      * intros (Hxz & pre & c & rest & -> & Hpre & Hc).
        exists (String z pre), c, rest. split; [done|]. split; [|done].
        simpl. by rewrite Hxz, Hpre.
      * intros (pre & c & rest & Hs & Hpre & Hc). destruct pre as [|z' pre]; [done|].
        rewrite app_cons in Hs. injection Hs as <- ->.
        simpl in Hpre. apply andb_prop in Hpre as [Hxz Hpre]. eauto 10.
Qed.

(** X1. A metadata directory matches a distribution name (one without a
    backslash before a separator) exactly when its name begins with a
    text that differs from the distribution name only in separators and
    letter case, followed by a hyphen and a digit: the match is anchored
    at the start and the distribution name must be followed by the
    version, so [foo] does not match [foo-bar-1.0.dist-info]. *)
Theorem metadata_match_is_anchored dist_name name :
  plain dist_name = true →
  matches_dist (name_pattern dist_name) name = Some true
  ↔ ∃ pre c rest, name = pre +:+ String "-" (String c rest)
                  ∧ sep_case_equiv dist_name pre = true ∧ Py.is_digit c = true.
Proof.
  intros Hplain. rewrite matches_dist_atoms, (plain_pattern_atoms _ Hplain).
  rewrite <- name_then_version. split; [by intros [= ->] | by intros ->].
Qed.

Lemma metadata_match_is_anchored_witness :
  plain "foo" = true
  ∧ (matches_dist (name_pattern "foo") "Foo-1.2.0.dist-info" = Some true
     ↔ ∃ pre c rest, "Foo-1.2.0.dist-info" = pre +:+ String "-" (String c rest)
                     ∧ sep_case_equiv "foo" pre = true ∧ Py.is_digit c = true).
Proof.
  split; [reflexivity|].
  exact (metadata_match_is_anchored "foo" "Foo-1.2.0.dist-info" eq_refl).
Defined.

(** X2. Names that differ only in the choice of separators and in letter
    case (without a backslash before a separator) match the same entries
    of the store, so the loop over the metadata directories ends the
    same way for both; the whole resolution gives the same result when
    the record path returns for one of them or when the fallback
    normalizes both to one name. *)
Theorem separators_and_case_on_record_path fs site_packages a b :
  sep_case_equiv a b = true →
  plain a = true →
  (∀ name, matches_dist (name_pattern a) name = matches_dist (name_pattern b) name)
  ∧ (∀ entries, scan fs site_packages (name_pattern a) entries
                = scan fs site_packages (name_pattern b) entries)
  ∧ (∀ entries l,
       Fs.iterdir fs site_packages = Ok entries →
       scan fs site_packages (name_pattern a) entries = Ok (Some l) →
       resolve_package_dirs fs site_packages a = Ok l
       ∧ resolve_package_dirs fs site_packages b = Ok l)
  ∧ (normalized a = normalized b →
     resolve_package_dirs fs site_packages a = resolve_package_dirs fs site_packages b).
Proof.
  intros Hab Hplain.
  assert (Hmatch : ∀ name, matches_dist (name_pattern a) name
                           = matches_dist (name_pattern b) name)
    by (intros name; by apply matches_dist_equiv).
  assert (Hscan : ∀ entries, scan fs site_packages (name_pattern a) entries
                             = scan fs site_packages (name_pattern b) entries).
  { induction entries as [|d entries IH]; simpl; [done|]. by rewrite Hmatch, IH. }
  split; [exact Hmatch|]. split; [exact Hscan|]. split.
  - intros entries l Hiter Hfound. unfold resolve_package_dirs.
    rewrite Hiter. simpl. by rewrite <- Hscan, Hfound.
  - intros Hnorm. unfold resolve_package_dirs, fallback.
    destruct (Fs.iterdir fs site_packages) as [entries|]; simpl; [|done].
    by rewrite Hscan, Hnorm.
Qed.

Lemma separators_and_case_on_record_path_witness :
  (sep_case_equiv "FOO" "foo" = true ∧ plain "FOO" = true)
  ∧ ((∀ name, matches_dist (name_pattern "FOO") name = matches_dist (name_pattern "foo") name)
     ∧ (∀ entries, scan Demo.store1 Demo.sp (name_pattern "FOO") entries
                   = scan Demo.store1 Demo.sp (name_pattern "foo") entries)
     ∧ (∀ entries l,
          Fs.iterdir Demo.store1 Demo.sp = Ok entries →
          scan Demo.store1 Demo.sp (name_pattern "FOO") entries = Ok (Some l) →
          resolve_package_dirs Demo.store1 Demo.sp "FOO" = Ok l
          ∧ resolve_package_dirs Demo.store1 Demo.sp "foo" = Ok l)
     ∧ (normalized "FOO" = normalized "foo" →
        resolve_package_dirs Demo.store1 Demo.sp "FOO"
        = resolve_package_dirs Demo.store1 Demo.sp "foo")).
Proof.
  split; [split; reflexivity|].
  exact (separators_and_case_on_record_path Demo.store1 Demo.sp "FOO" "foo" eq_refl eq_refl).
Defined.

(** ** When the resolution raises *)

Lemma scan_not_re_error fs site_packages dist_name entries e :
  scan fs site_packages (name_pattern dist_name) entries = Raise e → e ≠ ReError.
Proof.
  induction entries as [|d entries IH]; simpl; [done|].
  destruct (negb (Py.endswith (Fs.name d) ".dist-info")); [exact IH|].
  rewrite matches_dist_atoms.
  destruct (Re.match_atoms _ _ _ _); [|exact IH].
  destruct (negb (Fs.exists_ fs (Fs.joinpath d "RECORD"))); [exact IH|].
  destruct (Fs.read_text fs (Fs.joinpath d "RECORD")) as [text|e'] eqn:Htext; simpl.
  - destruct (decide (record_dirs fs site_packages text = ∅)); [exact IH | done].
  - intros [= ->]. unfold Fs.read_text in Htext.
    destruct (Fs.stat fs (Fs.joinpath d "RECORD")) as [[|]|]; by inversion Htext.
Qed.

(** X3. [resolve_package_dirs] catches no exception and the pattern it
    builds never fails: the exception of [iterdir] on the store leaves
    it as it is; so does the exception of [read_text] on the [RECORD]
    of a matching metadata directory that the loop reaches (for a
    [RECORD] that is a directory, [IsADirectoryError]); and [re.match]
    gives an answer for every name and every entry, so that no
    exception comes from the pattern. *)
Theorem resolve_lets_exceptions_through fs site_packages dist_name :
  (∀ name, ∃ answer, matches_dist (name_pattern dist_name) name = Some answer)
  ∧ (∀ e, Fs.iterdir fs site_packages = Raise e →
          resolve_package_dirs fs site_packages dist_name = Raise e)
  ∧ (∀ before d after e,
       Fs.iterdir fs site_packages = Ok (before ++ d :: after) →
       (∀ x, x ∈ before → passed_over fs site_packages dist_name x) →
       Py.endswith (Fs.name d) ".dist-info" = true →
       matches_dist (name_pattern dist_name) (Fs.name d) = Some true →
       Fs.exists_ fs (Fs.joinpath d "RECORD") = true →
       Fs.read_text fs (Fs.joinpath d "RECORD") = Raise e →
       resolve_package_dirs fs site_packages dist_name = Raise e)
  ∧ (∀ e, resolve_package_dirs fs site_packages dist_name = Raise e → e ≠ ReError).
Proof.
  split; [|split; [|split]].
  - intros name. rewrite matches_dist_atoms. eauto.
  - intros e Hiter. unfold resolve_package_dirs. by rewrite Hiter.
  - intros before d after e Hiter Hbefore Hsuffix Hmatch Hexists Hread.
    unfold resolve_package_dirs. rewrite Hiter. simpl.
    rewrite scan_app, (scan_passed_over _ _ _ _ Hbefore). simpl.
    rewrite Hsuffix, Hmatch. simpl. rewrite Hexists, Hread. reflexivity.
  - intros e. unfold resolve_package_dirs.
    destruct (Fs.iterdir fs site_packages) as [entries|e'] eqn:Hiter; simpl.
    + destruct (scan fs site_packages (name_pattern dist_name) entries) as [[l|]|e'] eqn:Hscan;
        simpl; try done.
      intros [= ->]. by apply (scan_not_re_error _ _ _ _ _ Hscan).
    + intros [= ->]. unfold Fs.iterdir in Hiter.
      destruct (Fs.stat fs site_packages) as [[|]|]; by inversion Hiter.
Qed.

Lemma resolve_lets_exceptions_through_witness :
  let fs := Cases.store_record_dir in
  let d := Fs.child Demo.sp "foo-1.0.dist-info" in
  (Fs.iterdir fs Demo.sp = Ok ([] ++ d :: [Fs.child Demo.sp "foo"])
   ∧ (∀ x, x ∈ [] → passed_over fs Demo.sp "foo" x)
   ∧ Py.endswith (Fs.name d) ".dist-info" = true
   ∧ matches_dist (name_pattern "foo") (Fs.name d) = Some true
   ∧ Fs.exists_ fs (Fs.joinpath d "RECORD") = true
   ∧ Fs.read_text fs (Fs.joinpath d "RECORD") = Raise IsADirectoryError)
  ∧ resolve_package_dirs fs Demo.sp "foo" = Raise IsADirectoryError.
Proof.
  intros fs d.
  assert (H1 : Fs.iterdir fs Demo.sp = Ok ([] ++ d :: [Fs.child Demo.sp "foo"]))
    by (vm_compute; reflexivity).
  assert (H2 : ∀ x, x ∈ [] → passed_over fs Demo.sp "foo" x)
    by (intros x Hx; by apply elem_of_nil in Hx).
  assert (H3 : Py.endswith (Fs.name d) ".dist-info" = true) by (vm_compute; reflexivity).
  assert (H4 : matches_dist (name_pattern "foo") (Fs.name d) = Some true)
    by (vm_compute; reflexivity).
  assert (H5 : Fs.exists_ fs (Fs.joinpath d "RECORD") = true) by (vm_compute; reflexivity).
  assert (H6 : Fs.read_text fs (Fs.joinpath d "RECORD") = Raise IsADirectoryError)
    by (vm_compute; reflexivity).
  split; [repeat split; assumption|].
  exact (proj1 (proj2 (proj2 (resolve_lets_exceptions_through fs Demo.sp "foo")))
           [] d _ IsADirectoryError H1 H2 H3 H4 H5 H6).
Defined.

(** ** What a result holds *)

Lemma joinpath_empty site_packages : Fs.joinpath site_packages EmptyString = site_packages.
Proof.
  destruct site_packages as [anchored comps]. unfold Fs.joinpath. simpl.
  by rewrite app_nil_r.
Qed.

Lemma iterdir_is_dir fs p entries : Fs.iterdir fs p = Ok entries → Fs.is_dir fs p = true.
Proof.
  unfold Fs.iterdir, Fs.is_dir. by destruct (Fs.stat fs p) as [[|]|].
Qed.

(** X4. When the loop over the metadata directories returns, its result
    is the result of the resolution; it is not empty, and each of its
    names is a single path segment (no slash) that does not end with the
    metadata suffix, does not start with an underscore, is not [..], is
    a directory of the store and denotes a location inside the store. *)
Theorem record_path_result fs site_packages dist_name entries l :
  Fs.iterdir fs site_packages = Ok entries →
  scan fs site_packages (name_pattern dist_name) entries = Ok (Some l) →
  resolve_package_dirs fs site_packages dist_name = Ok l
  ∧ l ≠ []
  ∧ ∀ top, top ∈ l →
      Py.contains "/" top = false
      ∧ Py.endswith top ".dist-info" = false
      ∧ Py.startswith top "_" = false
      ∧ top ≠ ".."
      ∧ Fs.is_dir fs (Fs.joinpath site_packages top) = true
      ∧ Fs.inside fs site_packages (Fs.joinpath site_packages top).
Proof.
  intros Hiter Hscan. split; [|split].
  - unfold resolve_package_dirs. rewrite Hiter. simpl. by rewrite Hscan.
  - destruct (scan_some _ _ _ _ _ Hscan) as (d & dirs & _ & (_ & _ & _ & Hne) & ->).
    apply set_choose_L in Hne as [x Hx]. intros Hnil.
    apply elem_of_sorted in Hx. rewrite Hnil in Hx. by apply elem_of_nil in Hx.
  - intros top Hin. split; [|by apply (record_path_names _ _ _ _ _ _ Hscan Hin)].
    destruct (scan_some _ _ _ _ _ Hscan) as (d & dirs & _ & (_ & _ & (text & _ & <-) & _) & ->).
    apply elem_of_sorted, elem_of_record_dirs in Hin as [_ (line & _ & _ & <-)].
    apply split_head_no_separator.
Qed.

Lemma record_path_result_witness :
  let entries := map (Fs.child Demo.sp) ["Foo-1.2.0.dist-info"; "foo"; "bar"] in
  (Fs.iterdir Demo.store1 Demo.sp = Ok entries
   ∧ scan Demo.store1 Demo.sp (name_pattern "foo") entries = Ok (Some ["foo"]))
  ∧ (resolve_package_dirs Demo.store1 Demo.sp "foo" = Ok ["foo"]
     ∧ ["foo"] ≠ []
     ∧ ∀ top, top ∈ ["foo"] →
         Py.contains "/" top = false
         ∧ Py.endswith top ".dist-info" = false
         ∧ Py.startswith top "_" = false
         ∧ top ≠ ".."
         ∧ Fs.is_dir Demo.store1 (Fs.joinpath Demo.sp top) = true
         ∧ Fs.inside Demo.store1 Demo.sp (Fs.joinpath Demo.sp top)).
Proof.
  intros entries.
  assert (H1 : Fs.iterdir Demo.store1 Demo.sp = Ok entries) by (vm_compute; reflexivity).
  assert (H2 : scan Demo.store1 Demo.sp (name_pattern "foo") entries = Ok (Some ["foo"]))
    by (vm_compute; reflexivity).
  split; [split; assumption|].
  exact (record_path_result Demo.store1 Demo.sp "foo" entries ["foo"] H1 H2).
Defined.

(** X5. On both paths a result is in ascending order, has no name twice
    and holds no name that ends with the metadata suffix. *)
Theorem result_sorted_without_metadata fs site_packages dist_name l :
  resolve_package_dirs fs site_packages dist_name = Ok l →
  StronglySorted String.le l
  ∧ NoDup l
  ∧ ∀ top, top ∈ l → Py.endswith top ".dist-info" = false.
Proof.
  intros Hres. split; [|split].
  - destruct (resolve_cases _ _ _ _ Hres) as (entries & _ & [Hscan|[_ ->]]).
    + destruct (scan_some _ _ _ _ _ Hscan) as (d & dirs & _ & _ & ->).
      apply sorted_is_sorted.
    + unfold fallback. destruct (Fs.is_dir _ _); repeat constructor.
  - destruct (resolve_cases _ _ _ _ Hres) as (entries & _ & [Hscan|[_ ->]]).
    + destruct (scan_some _ _ _ _ _ Hscan) as (d & dirs & _ & _ & ->).
      apply sorted_is_sorted.
    + unfold fallback. destruct (Fs.is_dir _ _); [apply NoDup_singleton | apply NoDup_nil_2].
  - intros top Hin. by apply (resolve_never_metadata_suffix _ _ _ _ _ Hres).
Qed.

Lemma result_sorted_without_metadata_witness :
  resolve_package_dirs Cases.store_absolute Demo.sp "foo" = Ok [EmptyString; "foo"]
  ∧ (StronglySorted String.le [EmptyString; "foo"]
     ∧ NoDup [EmptyString; "foo"]
     ∧ ∀ top, top ∈ [EmptyString; "foo"] → Py.endswith top ".dist-info" = false).
Proof.
  assert (H : resolve_package_dirs Cases.store_absolute Demo.sp "foo" = Ok [EmptyString; "foo"])
    by (vm_compute; reflexivity).
  split; [exact H|].
  exact (result_sorted_without_metadata Cases.store_absolute Demo.sp "foo" _ H).
Defined.

(** X6. For a distribution name that starts with neither [_] nor [-],
    no name of the result starts with an underscore, on both paths. *)
Theorem no_underscore_for_plain_names fs site_packages dist_name l top :
  Py.startswith dist_name "_" = false →
  Py.startswith dist_name "-" = false →
  resolve_package_dirs fs site_packages dist_name = Ok l →
  top ∈ l →
  Py.startswith top "_" = false.
Proof.
  intros Hu Hh Hres Hin.
  destruct (resolve_cases _ _ _ _ Hres) as (entries & _ & [Hscan|[_ ->]]).
  - by apply (record_path_names _ _ _ _ _ _ Hscan Hin).
  - by rewrite (fallback_underscore _ _ _ _ Hin), Hu, Hh.
Qed.

Lemma no_underscore_for_plain_names_witness :
  (Py.startswith "my-pkg" "_" = false
   ∧ Py.startswith "my-pkg" "-" = false
   ∧ resolve_package_dirs Demo.store_plain Demo.sp "my-pkg" = Ok ["my_pkg"]
   ∧ "my_pkg" ∈ ["my_pkg"])
  ∧ Py.startswith "my_pkg" "_" = false.
Proof.
  assert (H : resolve_package_dirs Demo.store_plain Demo.sp "my-pkg" = Ok ["my_pkg"])
    by (vm_compute; reflexivity).
  assert (Hin : "my_pkg" ∈ ["my_pkg"]) by left.
  split; [repeat split; try assumption|].
  exact (no_underscore_for_plain_names Demo.store_plain Demo.sp "my-pkg" _ "my_pkg"
           eq_refl eq_refl H Hin).
Defined.

Lemma normalized_char_slash c :
  Ascii.eqb (if Ascii.eqb (Py.lower_char c) "-" then "_"%char else Py.lower_char c) "/"
  = Ascii.eqb c "/".
Proof. each_char c; reflexivity. Qed.

Lemma normalized_char_dot c :
  Ascii.eqb (if Ascii.eqb (Py.lower_char c) "-" then "_"%char else Py.lower_char c) "."
  = Ascii.eqb c ".".
Proof. each_char c; reflexivity. Qed.

Lemma normalized_slash dist_name :
  Py.contains "/" (normalized dist_name) = Py.contains "/" dist_name.
Proof.
  unfold normalized, Py.replace_char, Py.lower.
  induction dist_name as [|c s IH]; [done|].
  cbn [Py.map_chars Py.contains]. by rewrite normalized_char_slash, IH.
Qed.

Lemma normalized_dots dist_name :
  String.eqb (normalized dist_name) ".." = String.eqb dist_name "..".
Proof.
  unfold normalized, Py.replace_char, Py.lower.
  destruct dist_name as [|c1 [|c2 [|c3 s]]]; cbn [Py.map_chars String.eqb];
    by rewrite ?normalized_char_dot.
Qed.

(** X7. For a distribution name without a slash and other than [..],
    every name of the result, joined to the store, denotes a location
    inside the store, on both paths. *)
Theorem slash_free_names_stay_inside fs site_packages dist_name l top :
  Py.contains "/" dist_name = false →
  dist_name ≠ ".." →
  resolve_package_dirs fs site_packages dist_name = Ok l →
  top ∈ l →
  Fs.inside fs site_packages (Fs.joinpath site_packages top).
Proof.
  intros Hslash Hdots Hres Hin.
  destruct (resolve_cases _ _ _ _ Hres) as (entries & _ & [Hscan|[_ ->]]).
  - by apply (record_path_names _ _ _ _ _ _ Hscan Hin).
  - apply fallback_is_dir in Hin as [-> _]. apply segment_inside.
    + by rewrite normalized_slash.
    + rewrite normalized_dots. by apply String.eqb_neq.
Qed.

Lemma slash_free_names_stay_inside_witness :
  (Py.contains "/" "Bar" = false
   ∧ "Bar" ≠ ".."
   ∧ resolve_package_dirs Demo.store1 Demo.sp "Bar" = Ok ["bar"]
   ∧ "bar" ∈ ["bar"])
  ∧ Fs.inside Demo.store1 Demo.sp (Fs.joinpath Demo.sp "bar").
Proof.
  assert (Hne : "Bar" ≠ "..") by discriminate.
  assert (H : resolve_package_dirs Demo.store1 Demo.sp "Bar" = Ok ["bar"])
    by (vm_compute; reflexivity).
  assert (Hin : "bar" ∈ ["bar"]) by left.
  split; [repeat split; try assumption|].
  exact (slash_free_names_stay_inside Demo.store1 Demo.sp "Bar" _ "bar" eq_refl Hne H Hin).
Defined.

Lemma startswith_char s c :
  Py.startswith s (String c EmptyString) = true → ∃ rest, s = String c rest.
Proof.
  destruct s as [|x s]; simpl; [done|].
  destruct (ascii_dec c x) as [->|]; [eauto | done].
Qed.

(** X8. A [RECORD] line whose path starts with a slash has the empty
    first segment, which passes the four conditions because the empty
    name joined to the store is the store: when that record decides,
    the empty name is in the result and the store itself becomes an
    index target. *)
Theorem absolute_record_path_gives_store
    fs site_packages dist_name before d after text line :
  Fs.iterdir fs site_packages = Ok (before ++ d :: after) →
  scan fs site_packages (name_pattern dist_name) before = Ok None →
  Py.endswith (Fs.name d) ".dist-info" = true →
  matches_dist (name_pattern dist_name) (Fs.name d) = Some true →
  Fs.read_text fs (Fs.joinpath d "RECORD") = Ok text →
  line ∈ Py.splitlines text →
  Py.startswith line "/" = true →
  ∃ l, resolve_package_dirs fs site_packages dist_name = Ok l
       ∧ EmptyString ∈ l
       ∧ Fs.joinpath site_packages EmptyString = site_packages.
Proof.
  intros Hiter Hbefore Hsuffix Hmatch Htext Hline Hstart.
  apply startswith_char in Hstart as [rest ->].
  assert (Hq : qualifies fs site_packages EmptyString = true).
  { unfold qualifies. rewrite joinpath_empty, (iterdir_is_dir _ _ _ Hiter). reflexivity. }
  assert (Hin : EmptyString ∈ record_dirs fs site_packages text).
  { apply elem_of_record_dirs. split; [done|]. exists (String "/" rest). by split. }
  assert (Hy : yields fs site_packages dist_name d (record_dirs fs site_packages text)).
  { repeat split; eauto. intros Hempty. rewrite Hempty in Hin.
    by apply not_elem_of_empty in Hin. }
  exists (sorted (record_dirs fs site_packages text)).
  split; [|split; [by apply elem_of_sorted | apply joinpath_empty]].
  unfold resolve_package_dirs. rewrite Hiter. simpl.
  by rewrite scan_app, Hbefore, (scan_yields _ _ _ _ _ _ Hy).
Qed.

Lemma absolute_record_path_gives_store_witness :
  let fs := Cases.store_absolute in
  let d := Fs.child Demo.sp "foo-1.0.dist-info" in
  let text := "/usr/bin/foo,," +:+ Demo.nl +:+ "foo/__init__.py,," +:+ Demo.nl in
  (Fs.iterdir fs Demo.sp = Ok ([] ++ d :: [Fs.child Demo.sp "foo"])
   ∧ scan fs Demo.sp (name_pattern "foo") [] = Ok None
   ∧ Py.endswith (Fs.name d) ".dist-info" = true
   ∧ matches_dist (name_pattern "foo") (Fs.name d) = Some true
   ∧ Fs.read_text fs (Fs.joinpath d "RECORD") = Ok text
   ∧ "/usr/bin/foo,," ∈ Py.splitlines text
   ∧ Py.startswith "/usr/bin/foo,," "/" = true)
  ∧ ∃ l, resolve_package_dirs fs Demo.sp "foo" = Ok l
         ∧ EmptyString ∈ l
         ∧ Fs.joinpath Demo.sp EmptyString = Demo.sp.
Proof.
  intros fs d text.
  assert (H1 : Fs.iterdir fs Demo.sp = Ok ([] ++ d :: [Fs.child Demo.sp "foo"]))
    by (vm_compute; reflexivity).
  assert (H2 : scan fs Demo.sp (name_pattern "foo") [] = Ok None) by reflexivity.
  assert (H3 : Py.endswith (Fs.name d) ".dist-info" = true) by (vm_compute; reflexivity).
  assert (H4 : matches_dist (name_pattern "foo") (Fs.name d) = Some true)
    by (vm_compute; reflexivity).
  assert (H5 : Fs.read_text fs (Fs.joinpath d "RECORD") = Ok text) by (vm_compute; reflexivity).
  assert (H6 : "/usr/bin/foo,," ∈ Py.splitlines text) by (vm_compute; left).
  assert (H7 : Py.startswith "/usr/bin/foo,," "/" = true) by reflexivity.
  split; [repeat split; assumption|].
  exact (absolute_record_path_gives_store fs Demo.sp "foo" [] d _ text _ H1 H2 H3 H4 H5 H6 H7).
Defined.

(** ** The indexing loop *)

Section LoopFacts.

Variable spawn : list string -> process_result.

Lemma after_exit_tmp pkg_dir site_packages project index_dir w line :
  fresh_tmp w →
  tmp (after_exit pkg_dir site_packages project index_dir w line) = tmp w.
Proof.
  intros Hfresh. simpl. rewrite delete_insert_eq. apply delete_id. by apply Hfresh.
Qed.

(** What a call of [index_directory] leaves behind. *)
Lemma index_directory_footprint pkg_dir site_packages project index_dir w r w' :
  index_directory spawn pkg_dir site_packages project index_dir w = (r, w') →
  tmp_count w ≤ tmp_count w'
  ∧ length (runs w') ≤ length (runs w) + 1
  ∧ (fresh_tmp w → ∀ b, r = Ok b → tmp w' = tmp w).
Proof.
  intros Hcall.
  destruct (Fs.is_dir (files w) (Fs.joinpath site_packages pkg_dir)) eqn:Hdir.
  - destruct (spawn (command_of pkg_dir site_packages index_dir w))
      as [returncode stderr|e] eqn:Hrun.
    + rewrite (index_directory_exit _ _ _ _ _ _ _ _ Hdir Hrun) in Hcall.
      assert (Hw : ∃ line, w' = after_exit pkg_dir site_packages project index_dir w line).
      { destruct (returncode =? 0)%Z; injection Hcall as _ <-; eauto. }
      destruct Hw as [line ->].
      split; [simpl; lia|]. split; [simpl; rewrite length_app; simpl; lia|].
      intros Hfresh _ _. by apply after_exit_tmp.
    + rewrite (index_directory_not_started _ _ _ _ _ _ _ Hdir Hrun) in Hcall.
      injection Hcall as <- <-. simpl. rewrite length_app. simpl.
      repeat split; try lia. intros _ b Hb. discriminate Hb.
  - rewrite (index_directory_skip _ _ _ _ _ _ Hdir) in Hcall.
    injection Hcall as <- <-. simpl. repeat split; try lia.
Qed.

Lemma fresh_tmp_later w w' :
  fresh_tmp w → tmp w' = tmp w → tmp_count w ≤ tmp_count w' → fresh_tmp w'.
Proof. intros Hfresh Htmp Hcount n Hn. rewrite Htmp. apply Hfresh. lia. Qed.

Lemma index_all_footprint
    to_index site_packages project index_dir ok failed w ok' failed' w' :
  index_all spawn to_index site_packages project index_dir ok failed w
  = (Ok (ok', failed'), w') →
  ok' + failed' = ok + failed + length to_index
  ∧ ok ≤ ok' ∧ failed ≤ failed'
  ∧ length (runs w') ≤ length (runs w) + length to_index
  ∧ (fresh_tmp w → tmp w' = tmp w).
Proof.
  revert ok failed w. induction to_index as [|pkg_dir rest IH]; intros ok failed w Hloop.
  - injection Hloop as <- <- <-. simpl. repeat split; lia || done.
  - simpl in Hloop. unfold mbind' at 1 in Hloop.
    destruct (index_directory spawn pkg_dir site_packages project index_dir w)
      as [[indexed|e] w1] eqn:Hcall; [|done].
    destruct (index_directory_footprint _ _ _ _ _ _ _ Hcall) as (Hcount & Hruns & Htmp).
    assert (Hnext : ∃ ok1 failed1,
      index_all spawn rest site_packages project index_dir ok1 failed1 w1 = (Ok (ok', failed'), w')
      ∧ ok1 + failed1 = ok + failed + 1 ∧ ok ≤ ok1 ∧ failed ≤ failed1).
    { destruct indexed; [exists (ok + 1), failed | exists ok, (failed + 1)];
        (split; [exact Hloop | lia]). }
    destruct Hnext as (ok1 & failed1 & Hrest & Hsum & Hok & Hfailed).
    destruct (IH _ _ _ Hrest) as (IH1 & IH2 & IH3 & IH4 & IH6).
    simpl. repeat split; try lia.
    intros Hfresh. specialize (Htmp Hfresh indexed eq_refl).
    rewrite IH6; [done|]. by apply (fresh_tmp_later w).
Qed.

(** X9. When the indexing loop returns, every directory of the list has
    been counted once, as indexed or as failed; at most one process was
    run for each; and, the names of the temporary files being fresh, no
    descriptor is left. *)
Theorem index_all_counts_every_directory
    to_index site_packages project index_dir ok failed w ok' failed' w' :
  index_all spawn to_index site_packages project index_dir ok failed w
  = (Ok (ok', failed'), w') →
  ok' + failed' = ok + failed + length to_index
  ∧ ok ≤ ok' ∧ failed ≤ failed'
  ∧ length (runs w') ≤ length (runs w) + length to_index
  ∧ (fresh_tmp w → tmp w' = tmp w).
Proof.
  intros Hloop.
  destruct (index_all_footprint _ _ _ _ _ _ _ _ _ _ Hloop) as (H1 & H2 & H3 & H4 & H5).
  repeat split; assumption.
Qed.

End LoopFacts.

Lemma fresh_tmp_initial fs : fresh_tmp (Demo.world_of fs).
Proof. intros n _. apply lookup_empty. Qed.

Lemma index_all_counts_every_directory_witness :
  let w := Demo.world_of Demo.store_plain in
  let out := index_all Demo.fails ["my_pkg"; "gone"] Demo.sp "myproject" (Fs.Path "/index") 0 0 w in
  out = (Ok (0, 2), out.2)
  ∧ (0 + 2 = 0 + 0 + length ["my_pkg"; "gone"]
     ∧ 0 ≤ 0 ∧ 0 ≤ 2
     ∧ length (runs out.2) ≤ length (runs w) + length ["my_pkg"; "gone"]
     ∧ (fresh_tmp w → tmp out.2 = tmp w)).
Proof.
  intros w out.
  assert (H : out = (Ok (0, 2), out.2)) by (vm_compute; reflexivity).
  split; [exact H|].
  exact (index_all_counts_every_directory Demo.fails ["my_pkg"; "gone"] Demo.sp "myproject"
           (Fs.Path "/index") 0 0 w 0 2 out.2 H).
Defined.

(** ** The orchestrator's steps *)

Lemma printed_only_refl w : printed_only w w.
Proof. by repeat split. Qed.

Lemma printed_only_trans w1 w2 w3 :
  printed_only w1 w2 → printed_only w2 w3 → printed_only w1 w3.
Proof. unfold printed_only. intros (? & ? & ? & ?) (? & ? & ? & ?). repeat split; congruence. Qed.

Lemma print_printed_only line w : printed_only w (print line w).2.
Proof. by repeat split. Qed.

Lemma NoDup_dedup_id seen l :
  NoDup l → (∀ x, x ∈ l → x ∉ seen) → dedup_from seen l = l.
Proof.
  intros Hnd. revert seen. induction Hnd as [|d l Hd Hnd IH]; intros seen Hseen; simpl; [done|].
  destruct (decide (d ∈ seen)) as [Hin|_].
  - exfalso. apply (Hseen d); [left | done].
  - f_equal. apply IH. intros x Hx. rewrite elem_of_union, elem_of_singleton.
    intros [Hin | ->]; [|done]. apply (Hseen x); [by right | done].
Qed.

Lemma dedup_from_length seen l : length (dedup_from seen l) ≤ length l.
Proof.
  revert seen. induction l as [|d l IH]; intros seen; simpl; [done|].
  destruct (decide (d ∈ seen)); simpl; [specialize (IH seen) | specialize (IH (seen ∪ {[d]}))]; lia.
Qed.

(** X10. Deduplication leaves a list without repeated names as it is,
    so deduplicating twice changes nothing more; it never makes a list
    longer. *)
Theorem dedup_is_idempotent :
  (∀ l, NoDup l → dedup l = l)
  ∧ (∀ l, dedup (dedup l) = dedup l)
  ∧ (∀ l, length (dedup l) ≤ length l).
Proof.
  assert (Hid : ∀ l, NoDup l → dedup l = l).
  { intros l Hnd. apply NoDup_dedup_id; [done|]. intros x _. apply not_elem_of_empty. }
  split; [exact Hid|]. split.
  - intros l. apply Hid, NoDup_dedup_from.
  - intros l. apply dedup_from_length.
Qed.

Lemma dedup_is_idempotent_witness :
  NoDup ["d"; "b"] ∧ dedup ["d"; "b"] = ["d"; "b"].
Proof.
  assert (H : NoDup ["d"; "b"]) by (apply (bool_decide_unpack _); vm_compute; exact I).
  split; [exact H|].
  exact (proj1 dedup_is_idempotent ["d"; "b"] H).
Defined.

Lemma resolve_all_result site_packages pkgs to_index w l w' :
  resolve_all site_packages pkgs to_index w = (Ok l, w') →
  (∀ pkg, pkg ∈ pkgs → resolve_package_dirs (files w) site_packages pkg
                        = Ok (resolved (files w) site_packages pkg))
  ∧ l = to_index ++ concat (map (resolved (files w) site_packages) pkgs)
  ∧ printed_only w w'.
Proof.
  revert to_index w. induction pkgs as [|pkg rest IH]; intros to_index w Hloop.
  - injection Hloop as <- <-. simpl. rewrite app_nil_r.
    split; [intros pkg Hin; by apply elem_of_nil in Hin|]. split; [done | apply printed_only_refl].
  - simpl in Hloop. unfold mbind', get_files, lift in Hloop.
    assert (Hres : resolved (files w) site_packages pkg
                   = match resolve_package_dirs (files w) site_packages pkg with
                     | Ok dirs => dirs
                     | Raise _ => []
                     end) by reflexivity.
    destruct (resolve_package_dirs (files w) site_packages pkg) as [dirs|e] eqn:Hpkg; [|done].
    assert (Hnext : ∃ w1, printed_only w w1
      ∧ resolve_all site_packages rest (to_index ++ dirs) w1 = (Ok l, w')).
    { destruct dirs as [|dir dirs].
      - exists (print ("  SKIP " +:+ pkg +:+ " (not found in site-packages)") w).2.
        split; [apply print_printed_only|]. rewrite app_nil_r. exact Hloop.
      - exists w. split; [apply printed_only_refl | exact Hloop]. }
    destruct Hnext as (w1 & Hw1 & Hrest).
    destruct (IH _ _ Hrest) as (IH1 & IH2 & IH3).
    assert (Hfiles : files w1 = files w) by apply Hw1.
    rewrite Hfiles in IH1, IH2.
    split; [|split].
    + intros p [-> | Hin]%elem_of_cons; [by rewrite Hres | by apply IH1].
    + simpl. rewrite Hres, IH2. by rewrite app_assoc.
    + by apply (printed_only_trans w w1 w').
Qed.

(** X11. When the resolution loop returns, every name resolved without
    raising and the list is the list built before, followed by the
    directories of the names in the order of the names; the loop only
    prints. *)
Theorem resolve_all_flattens site_packages pkgs to_index w l w' :
  resolve_all site_packages pkgs to_index w = (Ok l, w') →
  (∀ pkg, pkg ∈ pkgs → resolve_package_dirs (files w) site_packages pkg
                        = Ok (resolved (files w) site_packages pkg))
  ∧ l = to_index ++ concat (map (resolved (files w) site_packages) pkgs)
  ∧ printed_only w w'.
Proof.
  intros Hloop. destruct (resolve_all_result _ _ _ _ _ _ Hloop) as (H1 & H2 & H3).
  repeat split; assumption || apply H3.
Qed.

Lemma resolve_all_flattens_witness :
  let w := Demo.world_of Demo.store_shared in
  let out := resolve_all Demo.sp ["a"; "missing"; "b"; "a"] [] w in
  out = (Ok ["d"; "b"; "d"], out.2)
  ∧ ((∀ pkg, pkg ∈ ["a"; "missing"; "b"; "a"] →
        resolve_package_dirs (files w) Demo.sp pkg = Ok (resolved (files w) Demo.sp pkg))
     ∧ ["d"; "b"; "d"]
       = [] ++ concat (map (resolved (files w) Demo.sp) ["a"; "missing"; "b"; "a"])
     ∧ printed_only w out.2).
Proof.
  intros w out.
  assert (H : out = (Ok ["d"; "b"; "d"], out.2)) by (vm_compute; reflexivity).
  split; [exact H|].
  exact (resolve_all_flattens Demo.sp ["a"; "missing"; "b"; "a"] [] w _ out.2 H).
Defined.

(** ** A whole run *)

Section RunFacts.

Variable spawn : list string -> process_result.
Variable tomllib_loads : string -> result Toml.value.

Lemma collect_packages_printed_only a w r w' :
  collect_packages tomllib_loads a w = (r, w') → printed_only w w'.
Proof.
  unfold collect_packages.
  assert (Hfile : ∀ file, from_packages_file file w = (r, w') → printed_only w w').
  { intros file. unfold from_packages_file, mbind', get_files, lift, ret. simpl.
    destruct (Fs.read_text (files w) (Fs.Path file)); intros [= _ <-]; apply printed_only_refl. }
  assert (Hdoc : from_pyproject tomllib_loads a w = (r, w') → printed_only w w').
  { unfold from_pyproject, mbind', get_files, lift, ret, raise. simpl.
    destruct (Fs.exists_ (files w) (Fs.Path (pyproject a))).
    - destruct (parse_pyproject_deps tomllib_loads (files w) (Fs.Path (pyproject a)));
        simpl; intros [= _ <-]; [|apply printed_only_refl].
      by repeat split.
    - intros [= _ <-]. apply printed_only_refl. }
  destruct (packages a) as [[|p ps]|].
  - destruct (packages_file a) as [[|c f]|]; [exact Hdoc | apply Hfile | exact Hdoc].
  - intros [= _ <-]. apply printed_only_refl.
  - destruct (packages_file a) as [[|c f]|]; [exact Hdoc | apply Hfile | exact Hdoc].
Qed.

Lemma mbind_print {A : Type} line (k : M A) w : (print line;; k) w = k (print line w).2.
Proof. reflexivity. Qed.

(** X12. When a run ends without an exception: the store was found, the
    source gave at least one name, the two counters add up to the
    number of distinct directories the names resolve to and, the names
    of the temporary files being fresh, no descriptor is left. *)
Theorem main_returns a w ok failed w' :
  main spawn tomllib_loads a w = (Ok (ok, failed), w') →
  ∃ site_packages pkgs w1,
    find_site_packages (files w) (Fs.resolve (files w) (Fs.Path (venv a))) = Ok site_packages
    ∧ collect_packages tomllib_loads a w = (Ok pkgs, w1)
    ∧ pkgs ≠ []
    ∧ ok + failed = length (dedup (concat (map (resolved (files w) site_packages) pkgs)))
    ∧ (fresh_tmp w → tmp w' = tmp w).
Proof.
  unfold main, mbind' at 1, get_files. unfold mbind' at 1, lift.
  destruct (find_site_packages _ _) as [site_packages|e] eqn:Hfind; [|done].
  unfold mbind' at 1.
  destruct (collect_packages tomllib_loads a w) as [[pkgs|e] w1] eqn:Hcollect; [|done].
  destruct pkgs as [|p ps]; [done|].
  unfold mbind' at 1.
  destruct (resolve_all site_packages (p :: ps) [] w1) as [[to_index|e] w2] eqn:Hresolve; [|done].
  rewrite !mbind_print. unfold mbind' at 1.
  destruct (index_all spawn _ _ _ _ _ _ _) as [[[ok1 failed1]|e] w4] eqn:Hindex; [|done].
  rewrite mbind_print. unfold ret. intros [= <- <- <-].
  pose proof (collect_packages_printed_only _ _ _ _ Hcollect) as (Hf1 & Ht1 & Hc1 & _).
  destruct (resolve_all_result _ _ _ _ _ _ Hresolve) as (_ & -> & (Hf2 & Ht2 & Hc2 & _)).
  destruct (index_all_footprint _ _ _ _ _ _ _ _ _ _ _ Hindex) as (Hsum & _ & _ & _ & Ht4).
  simpl in Ht4, Hsum. rewrite Hf1 in Hsum.
  exists site_packages, (p :: ps), w1.
  split; [done|]. split; [done|]. split; [done|]. split; [exact Hsum|].
  intros Hfresh. simpl. rewrite Ht4; [simpl; congruence|].
  intros n Hn. simpl in *. rewrite Ht2, Ht1. apply Hfresh. lia.
Qed.

End RunFacts.

Lemma main_returns_witness :
  let w := Demo.world_of Demo.store_shared in
  let a := Demo.run_with ["a"; "b"; "a"] in
  let out := main Demo.fails Demo.no_toml a w in
  out = (Ok (0, 2), out.2)
  ∧ ∃ site_packages pkgs w1,
      find_site_packages (files w) (Fs.resolve (files w) (Fs.Path (venv a))) = Ok site_packages
      ∧ collect_packages Demo.no_toml a w = (Ok pkgs, w1)
      ∧ pkgs ≠ []
      ∧ 0 + 2 = length (dedup (concat (map (resolved (files w) site_packages) pkgs)))
      ∧ (fresh_tmp w → tmp out.2 = tmp w).
Proof.
  intros w a out.
  assert (H : out = (Ok (0, 2), out.2)) by (vm_compute; reflexivity).
  split; [exact H|].
  exact (main_returns Demo.fails Demo.no_toml a w 0 2 out.2 H).
Defined.

(** ** The file of names *)

Lemma truthy_nonempty s : Py.truthy s = true ↔ s ≠ EmptyString.
Proof. destruct s; simpl; split; done. Qed.

(** X13. The names read from a file of names are the stripped lines,
    without the lines that are blank and without the lines whose first
    character is [#]; each name is non-empty and has no white space
    around it.  The [#] is looked for before stripping, so an indented
    comment line is taken for a name. *)
Theorem names_of_lines_spec :
  (∀ text x,
     x ∈ names_of_lines text
     ↔ ∃ line, line ∈ Py.splitlines text
               ∧ x = Py.strip line
               ∧ x ≠ EmptyString
               ∧ Py.startswith line "#" = false)
  ∧ (∀ text x, x ∈ names_of_lines text → x ≠ EmptyString ∧ trimmed x)
  ∧ (∀ text line comment,
       line ∈ Py.splitlines text →
       Py.startswith line "#" = false →
       Py.strip line = String "#" comment →
       String "#" comment ∈ names_of_lines text).
Proof.
  assert (Hspec : ∀ text x,
     x ∈ names_of_lines text
     ↔ ∃ line, line ∈ Py.splitlines text
               ∧ x = Py.strip line
               ∧ x ≠ EmptyString
               ∧ Py.startswith line "#" = false).
  { intros text x. unfold names_of_lines.
    change (map Py.strip) with (fmap (M:=list) Py.strip). rewrite list_elem_of_fmap. split.
    - intros (line & -> & Hin). apply list_elem_of_In, filter_In in Hin as [Hin Hkeep].
      apply andb_prop in Hkeep as [Hne Hhash]. exists line.
      split; [by apply list_elem_of_In|]. split; [done|].
      split; [by apply truthy_nonempty | by apply negb_true_iff].
    - intros (line & Hin & -> & Hne & Hhash). exists line. split; [done|].
      apply list_elem_of_In, filter_In. split; [by apply list_elem_of_In|].
      apply andb_true_intro. split; [by apply truthy_nonempty | by apply negb_true_iff]. }
  split; [exact Hspec|]. split.
  - intros text x (line & _ & -> & Hne & _)%Hspec. split; [done|].
    destruct (strip_spec line) as (l & r & _ & _ & _ & Htrim). exact Htrim.
  - intros text line comment Hin Hhash Hstrip. apply Hspec. exists line.
    rewrite Hstrip. by repeat split.
Qed.

Lemma names_of_lines_spec_witness :
  let text := "# names" +:+ Demo.nl +:+ " requests " +:+ Demo.nl +:+ Demo.nl +:+ "  # flask" +:+ Demo.nl in
  ("  # flask" ∈ Py.splitlines text
   ∧ Py.startswith "  # flask" "#" = false
   ∧ Py.strip "  # flask" = String "#" " flask")
  ∧ String "#" " flask" ∈ names_of_lines text.
Proof.
  intros text.
  assert (H1 : "  # flask" ∈ Py.splitlines text) by (vm_compute; do 3 right; left).
  split; [repeat split; [exact H1 | reflexivity..]|].
  exact (proj2 (proj2 names_of_lines_spec) text "  # flask" " flask" H1 eq_refl eq_refl).
Defined.

(** ** A manifest that is not as expected *)

Lemma collect_names_non_string names items :
  (∃ item, item ∈ items ∧ is_str item = false) →
  collect_names names items = Raise TypeError.
Proof.
  intros (item & Hin & Hitem). revert names.
  induction items as [|v items IH]; intros names; [by apply elem_of_nil in Hin|].
  apply elem_of_cons in Hin as [<- | Hin].
  - destruct item; done.
  - destruct v as [dep| | |]; simpl; try done.
    destruct (Py.truthy (dep_name dep)); by apply IH.
Qed.

Lemma collect_names_app names deps :
  ∀ (strings : list string),
    deps = map Toml.Str strings →
    collect_names names deps = Ok (names ++ List.filter Py.truthy (map dep_name strings)).
Proof. intros strings ->. apply collect_names_strings. Qed.

(** X14. Reading a document: without a [project] table, or without
    [dependencies] in it, there are no names; a [project] that is no
    table raises [AttributeError]; an item of [dependencies] that is no
    string raises [TypeError], whatever names precede it; and
    [dependencies] given as one string is read character by
    character. *)
Theorem manifest_edge_cases :
  (∀ fields, Toml.lookup "project" fields = None →
     deps_of_document (Toml.Table fields) = Ok [])
  ∧ (∀ fields project,
       Toml.lookup "project" fields = Some (Toml.Table project) →
       Toml.lookup "dependencies" project = None →
       deps_of_document (Toml.Table fields) = Ok [])
  ∧ (∀ fields s,
       Toml.lookup "project" fields = Some (Toml.Str s) →
       deps_of_document (Toml.Table fields) = Raise AttributeError)
  ∧ (∀ fields project items item,
       Toml.lookup "project" fields = Some (Toml.Table project) →
       Toml.lookup "dependencies" project = Some (Toml.Array items) →
       item ∈ items → is_str item = false →
       deps_of_document (Toml.Table fields) = Raise TypeError)
  ∧ (∀ fields project s,
       Toml.lookup "project" fields = Some (Toml.Table project) →
       Toml.lookup "dependencies" project = Some (Toml.Str s) →
       deps_of_document (Toml.Table fields)
       = Ok (List.filter Py.truthy
               (map (fun c => dep_name (String c EmptyString)) (list_ascii_of_string s)))).
Proof.
  unfold deps_of_document. repeat split.
  - intros fields Hp. simpl. by rewrite Hp.
  - intros fields project Hp Hd. simpl. rewrite Hp. simpl. by rewrite Hd.
  - intros fields s Hp. simpl. by rewrite Hp.
  - intros fields project items item Hp Hd Hin Hitem. simpl. rewrite Hp. simpl. rewrite Hd.
    simpl. apply collect_names_non_string. eauto.
  - intros fields project s Hp Hd. simpl. rewrite Hp. simpl. rewrite Hd. simpl.
    rewrite (collect_names_app [] _ (map (fun c => String c EmptyString) (list_ascii_of_string s))).
    + simpl. by rewrite map_map.
    + by rewrite map_map.
Qed.

Lemma manifest_edge_cases_witness :
  let project := [("dependencies", Toml.Array [Toml.Str "requests"; Toml.Scalar])] in
  let fields := [("project", Toml.Table project)] in
  (Toml.lookup "project" fields = Some (Toml.Table project)
   ∧ Toml.lookup "dependencies" project = Some (Toml.Array [Toml.Str "requests"; Toml.Scalar])
   ∧ Toml.Scalar ∈ [Toml.Str "requests"; Toml.Scalar]
   ∧ is_str Toml.Scalar = false)
  ∧ deps_of_document (Toml.Table fields) = Raise TypeError.
Proof.
  intros project fields.
  assert (Hin : Toml.Scalar ∈ [Toml.Str "requests"; Toml.Scalar]) by (right; left).
  split; [repeat split; exact Hin|].
  exact (proj1 (proj2 (proj2 (proj2 manifest_edge_cases)))
           fields project _ Toml.Scalar eq_refl eq_refl Hin eq_refl).
Defined.

(** ** Environment Locator *)

Lemma filter_first {A : Type} (f : A → bool) (l : list A) d rest :
  List.filter f l = d :: rest →
  ∃ before after, l = before ++ d :: after
                  ∧ (∀ e, e ∈ before → f e = false)
                  ∧ f d = true.
Proof.
  induction l as [|x l IH]; simpl; [done|].
  destruct (f x) eqn:Hx.
  - intros [= -> _]. exists [], l. split; [done|]. split; [|done].
    intros e He. by apply elem_of_nil in He.
  - intros H. destruct (IH H) as (before & after & -> & Hbefore & Hd).
    exists (x :: before), after. split; [done|]. split; [|done].
    intros e [-> | He]%elem_of_cons; auto.
Qed.

Lemma filter_none {A : Type} (f : A → bool) (l : list A) :
  List.filter f l = [] → ∀ e, e ∈ l → f e = false.
Proof.
  induction l as [|x l IH]; simpl; intros H e He; [by apply elem_of_nil in He|].
  destruct (f x) eqn:Hx; [done|].
  apply elem_of_cons in He as [-> | He]; auto.
Qed.

(** X15. When [find_site_packages] returns, its result is the
    [site-packages] of the first entry of [lib], in the order of
    enumeration, that is a directory whose name starts with [python],
    and it exists. *)
Theorem find_site_packages_first_python fs venv site_packages :
  find_site_packages fs venv = Ok site_packages →
  ∃ before d after,
    Fs.iterdir fs (Fs.joinpath venv "lib") = Ok (before ++ d :: after)
    ∧ (∀ e, e ∈ before → python_dir fs e = false)
    ∧ Fs.is_dir fs d = true
    ∧ Py.startswith (Fs.name d) "python" = true
    ∧ site_packages = Fs.joinpath d "site-packages"
    ∧ Fs.exists_ fs site_packages = true.
Proof.
  unfold find_site_packages.
  destruct (Fs.exists_ fs (Fs.joinpath venv "lib")); simpl; [|done].
  destruct (Fs.iterdir fs (Fs.joinpath venv "lib")) as [children|] eqn:Hiter; simpl; [|done].
  destruct (List.filter _ children) as [|d rest] eqn:Hfilter; [done|].
  destruct (Fs.exists_ fs (Fs.joinpath d "site-packages")) eqn:Hexists; simpl; [|done].
  intros [= <-].
  destruct (filter_first _ _ _ _ Hfilter) as (before & after & -> & Hbefore & Hd).
  apply andb_prop in Hd as [Hdir Hname].
  exists before, d, after. repeat split; done.
Qed.

Lemma find_site_packages_first_python_witness :
  let fs := Cases2.venv_two_pythons in
  let venv := Fs.resolve fs (Fs.Path "/venv") in
  let site_packages := Fs.MkPath true ["venv"; "lib"; "python3.11"; "site-packages"] in
  find_site_packages fs venv = Ok site_packages
  ∧ ∃ before d after,
      Fs.iterdir fs (Fs.joinpath venv "lib") = Ok (before ++ d :: after)
      ∧ (∀ e, e ∈ before → python_dir fs e = false)
      ∧ Fs.is_dir fs d = true
      ∧ Py.startswith (Fs.name d) "python" = true
      ∧ site_packages = Fs.joinpath d "site-packages"
      ∧ Fs.exists_ fs site_packages = true.
Proof.
  intros fs venv site_packages.
  assert (H : find_site_packages fs venv = Ok site_packages) by (vm_compute; reflexivity).
  split; [exact H|].
  exact (find_site_packages_first_python fs venv site_packages H).
Defined.

(** X16. How [find_site_packages] ends without a store: when [lib] does
    not exist it exits with a message; when [lib] exists and [iterdir]
    raises on it (a [lib] that is a file gives [NotADirectoryError]),
    that exception leaves the function as it is, without a message of
    the program; when no entry of [lib] is a directory whose name
    starts with [python] it exits with a message; when the first such
    entry has no [site-packages] it exits with a message naming that
    path, and a later python directory is not tried. *)
Theorem find_site_packages_endings fs venv :
  let lib := Fs.joinpath venv "lib" in
  (Fs.exists_ fs lib = false →
   find_site_packages fs venv
   = Raise (SystemExit ("Error: " +:+ Fs.str lib +:+ " does not exist")))
  ∧ (∀ e, Fs.exists_ fs lib = true → Fs.iterdir fs lib = Raise e →
          find_site_packages fs venv = Raise e)
  ∧ (∀ children, Fs.exists_ fs lib = true → Fs.iterdir fs lib = Ok children →
       (∀ d, d ∈ children → python_dir fs d = false) →
       find_site_packages fs venv
       = Raise (SystemExit ("Error: no python directory found in " +:+ Fs.str lib)))
  ∧ (∀ before d after, Fs.exists_ fs lib = true →
       Fs.iterdir fs lib = Ok (before ++ d :: after) →
       (∀ d', d' ∈ before → python_dir fs d' = false) →
       python_dir fs d = true →
       Fs.exists_ fs (Fs.joinpath d "site-packages") = false →
       find_site_packages fs venv
       = Raise (SystemExit ("Error: " +:+ Fs.str (Fs.joinpath d "site-packages")
                            +:+ " does not exist"))).
Proof.
  intros lib.
  assert (Hnone : ∀ l : list Fs.path, (∀ d, d ∈ l → python_dir fs d = false) →
                  List.filter (python_dir fs) l = []).
  { induction l as [|x l IH]; intros Hall; simpl; [done|].
    rewrite (Hall x) by left. apply IH. intros d Hd. apply Hall. by right. }
  assert (Hfirst : ∀ before d after, (∀ d', d' ∈ before → python_dir fs d' = false) →
                   python_dir fs d = true →
                   List.filter (python_dir fs) (before ++ d :: after)
                   = d :: List.filter (python_dir fs) after).
  { intros before d after Hbefore Hd. rewrite List.filter_app, (Hnone _ Hbefore). simpl.
    by rewrite Hd. }
  unfold find_site_packages. fold lib. fold (python_dir fs).
  split; [|split; [|split]].
  - by intros ->.
  - intros e -> Hiter. simpl. by rewrite Hiter.
  - intros children -> Hiter Hall. simpl. rewrite Hiter. simpl.
    change (fun d => Fs.is_dir fs d && Py.startswith (Fs.name d) "python") with (python_dir fs).
    by rewrite (Hnone _ Hall).
  - intros before d after -> Hiter Hbefore Hd Hsp. simpl. rewrite Hiter. simpl.
    change (fun d => Fs.is_dir fs d && Py.startswith (Fs.name d) "python") with (python_dir fs).
    rewrite (Hfirst _ _ _ Hbefore Hd). by rewrite Hsp.
Qed.

Lemma find_site_packages_endings_witness :
  let fs := Cases2.venv_lib_file in
  let venv := Fs.resolve fs (Fs.Path "/venv") in
  (Fs.exists_ fs (Fs.joinpath venv "lib") = true
   ∧ Fs.iterdir fs (Fs.joinpath venv "lib") = Raise NotADirectoryError)
  ∧ find_site_packages fs venv = Raise NotADirectoryError.
Proof.
  intros fs venv.
  assert (H1 : Fs.exists_ fs (Fs.joinpath venv "lib") = true) by (vm_compute; reflexivity).
  assert (H2 : Fs.iterdir fs (Fs.joinpath venv "lib") = Raise NotADirectoryError)
    by (vm_compute; reflexivity).
  split; [split; assumption|].
  exact (proj1 (proj2 (find_site_packages_endings fs venv)) NotADirectoryError H1 H2).
Defined.

(** ** A run without names *)

Section ExitFacts.

Variable spawn : list string -> process_result.
Variable tomllib_loads : string -> result Toml.value.

(** X17. With neither a list nor a file of names, a manifest that exists
    and declares no dependency ends the run: the count of zero
    dependencies is printed, then the run exits with the message that
    there are no packages to index; nothing is resolved, no process is
    run and no descriptor is created. *)
Theorem manifest_without_names_is_fatal a w site_packages text data :
  find_site_packages (files w) (Fs.resolve (files w) (Fs.Path (venv a))) = Ok site_packages →
  packages a = None ∨ packages a = Some [] →
  packages_file a = None ∨ packages_file a = Some EmptyString →
  Fs.read_text (files w) (Fs.Path (pyproject a)) = Ok text →
  tomllib_loads text = Ok data →
  deps_of_document data = Ok [] →
  main spawn tomllib_loads a w
  = (Raise (SystemExit "Error: no packages to index"),
     MkWorld (files w) (tmp w) (tmp_count w)
             (stdout w ++ ["Read 0 dependencies from " +:+ Fs.str (Fs.Path (pyproject a))])
             (runs w)).
Proof.
  intros Hfind Hpackages Hfile Htext Hdata Hdeps.
  assert (Hcollect :
    collect_packages tomllib_loads a w
    = (Ok [], (print ("Read 0 dependencies from " +:+ Fs.str (Fs.Path (pyproject a))) w).2)).
  { assert (Hdoc : from_pyproject tomllib_loads a w
      = (Ok [], (print ("Read 0 dependencies from " +:+ Fs.str (Fs.Path (pyproject a))) w).2)).
    { unfold from_pyproject, mbind', get_files, lift.
      rewrite (read_text_exists _ _ _ Htext).
      unfold parse_pyproject_deps. rewrite Htext. simpl. rewrite Hdata. simpl.
      rewrite Hdeps. reflexivity. }
    unfold collect_packages.
    destruct Hpackages as [-> | ->], Hfile as [-> | ->]; exact Hdoc. }
  unfold main, mbind' at 1, get_files. unfold mbind' at 1, lift. rewrite Hfind.
  unfold mbind' at 1. rewrite Hcollect. reflexivity.
Qed.

End ExitFacts.

Lemma manifest_without_names_is_fatal_witness :
  let w := Demo.world_of Cases2.project_without_deps in
  let a := Cases2.run_from_manifest in
  let data := Toml.Table [("tool", Toml.Table [])] in
  (find_site_packages (files w) (Fs.resolve (files w) (Fs.Path (venv a))) = Ok Demo.sp
   ∧ (packages a = None ∨ packages a = Some [])
   ∧ (packages_file a = None ∨ packages_file a = Some EmptyString)
   ∧ Fs.read_text (files w) (Fs.Path (pyproject a)) = Ok "[tool]"
   ∧ Cases2.loads_tool_only "[tool]" = Ok data
   ∧ deps_of_document data = Ok [])
  ∧ main Demo.succeeds Cases2.loads_tool_only a w
    = (Raise (SystemExit "Error: no packages to index"),
       MkWorld (files w) (tmp w) (tmp_count w)
               (stdout w ++ ["Read 0 dependencies from " +:+ Fs.str (Fs.Path (pyproject a))])
               (runs w)).
Proof.
  intros w a data.
  assert (H1 : find_site_packages (files w) (Fs.resolve (files w) (Fs.Path (venv a))) = Ok Demo.sp)
    by (vm_compute; reflexivity).
  assert (H2 : packages a = None ∨ packages a = Some []) by (left; reflexivity).
  assert (H3 : packages_file a = None ∨ packages_file a = Some EmptyString) by (left; reflexivity).
  assert (H4 : Fs.read_text (files w) (Fs.Path (pyproject a)) = Ok "[tool]")
    by (vm_compute; reflexivity).
  assert (H5 : Cases2.loads_tool_only "[tool]" = Ok data) by reflexivity.
  assert (H6 : deps_of_document data = Ok []) by reflexivity.
  split; [repeat split; assumption|].
  exact (manifest_without_names_is_fatal Demo.succeeds Cases2.loads_tool_only a w Demo.sp
           "[tool]" data H1 H2 H3 H4 H5 H6).
Defined.

Section NamesFileFacts.

Variable spawn : list string -> process_result.
Variable tomllib_loads : string -> result Toml.value.

(** X18. With no name given by [--packages] and a file of names given:
    the names are those of the file and the manifest is not consulted;
    when the file cannot be read, the exception of [read_text] (for a
    missing file, [FileNotFoundError]) ends the run as it is, without a
    message of the program and before anything is printed or run. *)
Theorem names_file_is_read_or_raises a w site_packages c f :
  find_site_packages (files w) (Fs.resolve (files w) (Fs.Path (venv a))) = Ok site_packages →
  packages a = None ∨ packages a = Some [] →
  packages_file a = Some (String c f) →
  match Fs.read_text (files w) (Fs.Path (String c f)) with
  | Ok text => collect_packages tomllib_loads a w = (Ok (names_of_lines text), w)
  | Raise e => main spawn tomllib_loads a w = (Raise e, w)
  end.
Proof.
  intros Hfind Hpackages Hfile.
  assert (Hcollect :
    collect_packages tomllib_loads a w = from_packages_file (String c f) w).
  { unfold collect_packages. rewrite Hfile. by destruct Hpackages as [-> | ->]. }
  destruct (Fs.read_text (files w) (Fs.Path (String c f))) as [text|e] eqn:Htext.
  - rewrite Hcollect. unfold from_packages_file, mbind', get_files, lift.
    by rewrite Htext.
  - unfold main, mbind' at 1, get_files. unfold mbind' at 1, lift. rewrite Hfind.
    unfold mbind' at 1. rewrite Hcollect.
    unfold from_packages_file, mbind', get_files, lift. by rewrite Htext.
Qed.

End NamesFileFacts.

Lemma names_file_is_read_or_raises_witness :
  let w := Demo.world_of Demo.store1 in
  let a := MkArgs "/venv" "myproject" "pyproject.toml" None (Some "names.txt") "/index" in
  (find_site_packages (files w) (Fs.resolve (files w) (Fs.Path (venv a))) = Ok Demo.sp
   ∧ (packages a = None ∨ packages a = Some [])
   ∧ packages_file a = Some "names.txt")
  ∧ match Fs.read_text (files w) (Fs.Path "names.txt") with
    | Ok text => collect_packages Demo.no_toml a w = (Ok (names_of_lines text), w)
    | Raise e => main Demo.succeeds Demo.no_toml a w = (Raise e, w)
    end.
Proof.
  intros w a.
  assert (H1 : find_site_packages (files w) (Fs.resolve (files w) (Fs.Path (venv a))) = Ok Demo.sp)
    by (vm_compute; reflexivity).
  assert (H2 : packages a = None ∨ packages a = Some []) by (left; reflexivity).
  split; [repeat split; assumption|].
  exact (names_file_is_read_or_raises Demo.succeeds Demo.no_toml a w Demo.sp "n" "ames.txt"
           H1 H2 eq_refl).
Defined.
